(** * Save-file registry and restore widget of the snapshot GUI

    A shallow embedding of [snapshot/gui/restore.py]: the restore
    aggregation ([restore_done]), the selection of the values handed to a
    restore ([do_restore]), the row filter ([filter_file_list_selector]),
    the directory scan ([get_save_files], [update_file_list_selector],
    [gen_index_file], [start_file_list_update_new]) and the deletion of
    files ([evt_delete_files]).

    Python values are modelled as follows.
    - [str] is [string]; [a in b] on strings is [str_in a b].
    - a [dict] whose iteration order is observable (the status mapping of a
      restore, the dictionary returned by [get_save_files]) is an
      insertion-ordered association list ([odict]); a [dict] that is only
      looked up and updated ([self.file_list], a [pvs_list]) is a [gmap].
    - a [set] is a [gset]; [list(s)] of a set is [elements s], whose order
      is fixed but unspecified, like Python's.
    - the list held in [common_settings["existing_labels"]] lives in an
      object store, because two methods bind a local variable to it and
      only one of them mutates it.
    - an exception is a value of [exn]; a method that can raise returns a
      [result] together with the state reached when it stopped. *)

From stdpp Require Import gmap strings list fin_maps fin_sets sorting.
From Stdlib Require Import ZArith Ascii.

Local Open Scope string_scope.
Local Open Scope Z_scope.

(* stdpp's solvers clear hypotheses by name after they are gone *)
#[local] Set Warnings "-clear-no-such-hyp".

(* ===================================================================== *)
(** * Part I: the embedding *)
(* ===================================================================== *)

(** ** Python strings *)

(** [sub in s]: [sub] occurs in [s] as a contiguous substring. *)
Fixpoint str_in (sub s : string) : bool :=
  String.prefix sub s ||
  match s with
  | EmptyString => false
  | String _ s' => str_in sub s'
  end.

(** Truth value of a string: the empty string is falsy. *)
Definition str_truthy (s : string) : bool :=
  match s with EmptyString => false | _ => true end.

(** [s.split(sep)[0]] for a one-character separator: the text before the
    first occurrence of [sep], or the whole string when there is none. *)
Fixpoint split_head (sep : ascii) (s : string) : string :=
  match s with
  | EmptyString => EmptyString
  | String c s' => if Ascii.eqb c sep then EmptyString else String c (split_head sep s')
  end.

(** [s.startswith(p)]. *)
Definition startswith (s p : string) : bool := String.prefix p s.

(** [s[1:-1]]: drop the first and the last character (empty when the
    string has fewer than three characters). *)
Definition slice_1_m1 (s : string) : string :=
  String.substring 1 (String.length s - 2) s.

(** [sep.join(l)]. *)
Fixpoint str_join (sep : string) (l : list string) : string :=
  match l with
  | [] => ""
  | [x] => x
  | x :: l' => x +:+ sep +:+ str_join sep l'
  end.

(** ** Exceptions and results *)

Inductive exn :=
  | TypeError | ValueError | KeyError | IndexError | AttributeError
  | OSError | JSONDecodeError
  | DanglingRef (* model only: a reference to an object that was never created *).

Inductive result (A : Type) :=
  | Ok (a : A)
  | Raise (e : exn).
Arguments Ok {A} a.
Arguments Raise {A} e.

Definition is_ok {A} (r : result A) : bool :=
  match r with Ok _ => true | Raise _ => false end.

(** ** Insertion-ordered dictionaries *)

Definition odict (V : Type) := list (string * V).

Fixpoint od_get {V} (d : odict V) (k : string) : option V :=
  match d with
  | [] => None
  | (k', v) :: d' => if String.eqb k' k then Some v else od_get d' k
  end.

(** [d[k] = v]: an existing key keeps its position, a new key goes last. *)
Fixpoint od_set {V} (d : odict V) (k : string) (v : V) : odict V :=
  match d with
  | [] => [(k, v)]
  | (k', v') :: d' => if String.eqb k' k then (k', v) :: d' else (k', v') :: od_set d' k v
  end.

Definition od_keys {V} (d : odict V) : list string := map fst d.

(** ** Restore outcome ([restore_done]) *)

(** Modelled from the spec: [PvStatus] is declared in [ca_core], which is
    not part of the sources at hand; the spec lists the item statuses
    ok, access_error, type_error and disconnected, and [restore_done]
    names the members [access_err] and [type_err]. *)
Inductive PvStatus := ok | access_err | type_err | disconnected.

Global Instance PvStatus_eq_dec : EqDecision PvStatus.
Proof. solve_decision. Defined.

Record restore_report := {
  rr_error : bool;             (* the local [error] when the loop is over *)
  rr_log : list string;        (* every message passed to [sts_log.log_msgs] *)
  rr_status_txt : string;
  rr_status_background : string
}.

Record restore_loop_state := {
  rl_error : bool;
  rl_msgs : list string;
  rl_status_txt : string;
  rl_status_background : string
}.

Definition restore_done_step (forced : bool) (st : restore_loop_state)
    (it : string * PvStatus) : restore_loop_state :=
  let '(pvname, sts) := it in
  if decide (sts = access_err) then
    {| rl_error := negb forced;
       rl_msgs := (rl_msgs st ++ ["WARNING: " +:+ pvname +:+ ": Not restored (no connection or no read access)."])%list;
       rl_status_txt := "Restore error";
       rl_status_background := "#F06464" |}
  else if decide (sts = type_err) then
    {| rl_error := true;
       rl_msgs := (rl_msgs st ++ ["WARNING: " +:+ pvname +:+ ": Not restored (type problem)."])%list;
       rl_status_txt := "Restore error";
       rl_status_background := "#F06464" |}
  else st.

Definition restore_done (status : odict PvStatus) (forced : bool) : restore_report :=
  let st := foldl (restore_done_step forced)
              {| rl_error := false; rl_msgs := []; rl_status_txt := ""; rl_status_background := "" |}
              status in
  if negb (rl_error st) then
    {| rr_error := false;
       rr_log := (rl_msgs st ++ ["Restore finished."])%list;
       rr_status_txt := "Restore done";
       rr_status_background := "#64C864" |}
  else
    {| rr_error := true;
       rr_log := rl_msgs st;
       rr_status_txt := rl_status_txt st;
       rr_status_background := rl_status_background st |}.

(** What the spec asks of the aggregation. *)
Definition some_status (s : PvStatus) (status : odict PvStatus) : bool :=
  existsb (λ it, bool_decide (it.2 = s)) status.

Definition spec_error_state (status : odict PvStatus) (forced : bool) : bool :=
  some_status type_err status || (some_status access_err status && negb forced).

(** ** Meta data, tree items and the file filter *)

(** The header of a save file as a Python dict: each of the three keys the
    widget reads may be missing. *)
Record meta_data := {
  md_comment : option string;
  md_labels : option (list string);
  md_req_file_name : option string
}.

Definition empty_meta : meta_data :=
  {| md_comment := None; md_labels := None; md_req_file_name := None |}.

(** One top-level [QTreeWidgetItem] of [self.file_selector]. The four
    columns are time, file name, comment and labels; [ti_meta] is
    [item.data(0, 0x100)], [None] when [setData] was never called. *)
Record tree_item := {
  ti_id : nat;                 (* identity of the item object *)
  ti_time : Z;                 (* column 0: the formatted time stamp, kept as the stamp *)
  ti_file : string;            (* column 1 *)
  ti_comment : string;         (* column 2 *)
  ti_labels : string;          (* column 3 *)
  ti_meta : option meta_data;
  ti_hidden : bool
}.

Definition set_hidden (h : bool) (it : tree_item) : tree_item :=
  {| ti_id := ti_id it; ti_time := ti_time it; ti_file := ti_file it;
     ti_comment := ti_comment it; ti_labels := ti_labels it;
     ti_meta := ti_meta it; ti_hidden := h |}.

(** [SnapshotFileFilterWidget.file_filter]. *)
Record file_filter := {
  ff_keys : list string;
  ff_comment : string;
  ff_name : string
}.

Definition clear_filter : file_filter :=
  {| ff_keys := []; ff_comment := ""; ff_name := "" |}.

(** [name_filter and not name_filter in fn] *)
Definition name_test (name_filter fn : string) : bool :=
  str_truthy name_filter && negb (str_in name_filter fn).

(** [comment_filter and not name_filter in meta.get("comment")]: the
    right operand is evaluated only for a non-empty comment filter, and
    [x in None] raises [TypeError]. *)
Definition comment_test (comment_filter name_filter : string) (meta : meta_data) : result bool :=
  if str_truthy comment_filter then
    match md_comment meta with
    | None => Raise TypeError
    | Some c => Ok (negb (str_in name_filter c))
    end
  else Ok false.

(** [meta is not None and keys_filter and not keys_filter.issubset(meta.get('labels'))]
    with [keys_filter = set(file_filter.get("keys"))]; [issubset(None)]
    raises [TypeError]. *)
Definition labels_test (keys_filter : gset string) (meta : meta_data) : result bool :=
  if bool_decide (keys_filter ≠ ∅) then
    match md_labels meta with
    | None => Raise TypeError
    | Some labels => Ok (negb (bool_decide (keys_filter ⊆ list_to_set labels)))
    end
  else Ok false.

(** The body of the [while item:] loop: the value given to [setHidden]. *)
Definition row_hidden (ff : file_filter) (item : tree_item) : result bool :=
  let keys_filter : gset string := list_to_set (ff_keys ff) in
  let comment_filter := ff_comment ff in
  let name_filter := ff_name ff in
  let fn := ti_file item in
  let meta := default empty_meta (ti_meta item) in
  if name_test name_filter fn then Ok true
  else
    match comment_test comment_filter name_filter meta with
    | Raise e => Raise e
    | Ok true => Ok true
    | Ok false =>
        match labels_test keys_filter meta with
        | Raise e => Raise e
        | Ok true => Ok true
        | Ok false => Ok false
        end
    end.

(** The loop over the items of the tree: items before a raising one have
    their flag set, the raising one and those after it are left alone. *)
Fixpoint filter_items (ff : file_filter) (items : list tree_item) : result unit * list tree_item :=
  match items with
  | [] => (Ok (), [])
  | item :: rest =>
      match row_hidden ff item with
      | Raise e => (Raise e, item :: rest)
      | Ok h =>
          let '(r, rest') := filter_items ff rest in
          (r, set_hidden h item :: rest')
      end
  end.

(** Two lists of rows that differ in the hidden flags at most. *)
Definition same_rows (items items' : list tree_item) : Prop :=
  map (set_hidden false) items = map (set_hidden false) items'.

(** The comment criterion the spec asks for. *)
Definition spec_comment_passes (comment_filter comment : string) : bool :=
  negb (str_truthy comment_filter) || str_in comment_filter comment.

(** ** Save files, the table and the state of the widget *)

Section Embedding.
(** The type of a saved value and of the macros of a request file are
    declared in [ca_core]; the widget only passes them on. *)
Context {macros pv_value : Type}.
(** [SnapshotPv.macros_substitution], a static method of [ca_core]. *)
Variable macros_substitution : string → macros → string.
(** [json.load] applied to the text of the index file. *)
Variable json_load : string → result (list (string * meta_data)).

(** One entry of [file_list] or of the dictionary returned by
    [get_save_files]; [fd_file_selector] is the identity of the tree
    item stored under the key "file_selector", absent until
    [update_file_list_selector] sets it. *)
Record file_data := {
  fd_pvs_list : gmap string pv_value;
  fd_meta_data : meta_data;
  fd_modif_time : Z;
  fd_file_selector : option nat
}.

(** A path returned by [glob.glob], with what the widget reads of it. *)
Record save_file := {
  sf_name : string;              (* os.path.basename(file_path) *)
  sf_isfile : bool;              (* os.path.isfile(file_path) *)
  sf_mtime : Z;                  (* os.path.getmtime(file_path) *)
  sf_first_line : string;        (* open(file_path).readline() *)
  sf_pvs_list : gmap string pv_value;   (* snapshot.parse_from_save_file(file_path)[0] *)
  sf_meta_data : meta_data;             (* ... [1] *)
  sf_err : list string                  (* ... [2] *)
}.

(** The save directory as the two globs see it: [glob_req] is the
    result of the glob on the stem of the request file
    ([get_save_files]), [glob_idx] the result of the glob on the save
    file prefix ([gen_index_file]). *)
Record save_dir := {
  glob_req : list save_file;
  glob_idx : list save_file
}.

(** Objects that are shared by reference. *)
Inductive pyobj :=
  | PyList (l : list string)
  | PySet (s : gset string).

Record gui_state := {
  file_list : gmap string file_data;     (* self.file_list *)
  file_selector : list tree_item;        (* top-level items of the tree, in insertion order *)
  next_item : nat;                       (* identity of the next item to be created *)
  filter_input : file_filter;            (* self.filter_input.file_filter *)
  objs : gmap positive pyobj;            (* the object store *)
  existing_labels : positive             (* common_settings["existing_labels"] *)
}.

Definition set_file_list (fl : gmap string file_data) (σ : gui_state) : gui_state :=
  {| file_list := fl; file_selector := file_selector σ; next_item := next_item σ;
     filter_input := filter_input σ; objs := objs σ; existing_labels := existing_labels σ |}.

Definition set_file_selector (items : list tree_item) (σ : gui_state) : gui_state :=
  {| file_list := file_list σ; file_selector := items; next_item := next_item σ;
     filter_input := filter_input σ; objs := objs σ; existing_labels := existing_labels σ |}.

Definition set_next_item (n : nat) (σ : gui_state) : gui_state :=
  {| file_list := file_list σ; file_selector := file_selector σ; next_item := n;
     filter_input := filter_input σ; objs := objs σ; existing_labels := existing_labels σ |}.

Definition set_objs (h : gmap positive pyobj) (σ : gui_state) : gui_state :=
  {| file_list := file_list σ; file_selector := file_selector σ; next_item := next_item σ;
     filter_input := filter_input σ; objs := h; existing_labels := existing_labels σ |}.

(** *** The monad of the methods: state and exceptions *)

Definition M (A : Type) : Type := gui_state → result A * gui_state.

Definition ret {A} (a : A) : M A := λ σ, (Ok a, σ).
Definition raise {A} (e : exn) : M A := λ σ, (Raise e, σ).
Definition bind {A B} (m : M A) (k : A → M B) : M B :=
  λ σ, match m σ with
       | (Ok a, σ') => k a σ'
       | (Raise e, σ') => (Raise e, σ')
       end.
Definition gets {A} (f : gui_state → A) : M A := λ σ, (Ok (f σ), σ).
Definition modify (f : gui_state → gui_state) : M unit := λ σ, (Ok (), f σ).
Definition lift {A} (r : result A) : M A := λ σ, (r, σ).

Notation "x <- m ;; k" := (bind m (λ x, k))
  (at level 100, m at next level, right associativity, only parsing).
Notation "m ;;; k" := (bind m (λ _, k))
  (at level 100, right associativity, only parsing).

(** *** The object store *)

(** The list behind a reference, for an in-place list operation. *)
Definition read_list (l : positive) : M (list string) :=
  λ σ, match objs σ !! l with
       | Some (PyList x) => (Ok x, σ)
       | Some (PySet _) => (Raise TypeError, σ)
       | None => (Raise DanglingRef, σ)
       end.

Definition write_obj (l : positive) (o : pyobj) : M unit :=
  modify (λ σ, set_objs (<[l := o]> (objs σ)) σ).

(** [set(x)]: a new set object with the elements of the object [x]. *)
Definition new_set_of (l : positive) : M positive :=
  λ σ, match objs σ !! l with
       | None => (Raise DanglingRef, σ)
       | Some o =>
           let s : gset string :=
             match o with PyList x => list_to_set x | PySet s => s end in
           let l' := fresh (dom (objs σ)) in
           (Ok l', set_objs (<[l' := PySet s]> (objs σ)) σ)
       end.

(** [s.update(labels)] on the set behind a reference. *)
Definition set_update (l : positive) (labels : list string) : M unit :=
  λ σ, match objs σ !! l with
       | Some (PySet s) => (Ok (), set_objs (<[l := PySet (s ∪ list_to_set labels)]> (objs σ)) σ)
       | Some (PyList _) => (Raise AttributeError, σ)
       | None => (Raise DanglingRef, σ)
       end.

(** [l.remove(x)]: drops the first occurrence, [None] when there is none. *)
Fixpoint list_remove_first (x : string) (l : list string) : option (list string) :=
  match l with
  | [] => None
  | y :: l' => if String.eqb y x then Some l'
               else match list_remove_first x l' with
                    | Some r => Some (y :: r)
                    | None => None
                    end
  end.

(** [list(set(a) - set(b))] *)
Definition set_difference_list (a b : list string) : list string :=
  elements ((list_to_set a : gset string) ∖ list_to_set b).

(** *** Selection of the values to restore ([do_restore]) *)

(** The loop [for pvname in pvs_in_file.keys(): ... pvs_to_restore.pop(pvname, None)]
    on the copy [pvs_to_restore] of [pvs_in_file]. *)
Definition remove_unfiltered (mcr : macros) (pvs_list : list string)
    (pvs_in_file : gmap string pv_value) : gmap string pv_value :=
  foldl (λ pvs_to_restore pvname,
           if bool_decide (macros_substitution pvname mcr ∉ pvs_list)
           then delete pvname pvs_to_restore
           else pvs_to_restore)
        pvs_in_file
        (elements (dom pvs_in_file)).

Inductive restore_call :=
  | NoFileSelected             (* the warning "File with saved values is not selected" *)
  | ProblemReading             (* the warning "Problem reading data from selected file" *)
  | RestorePvs (pvs_to_restore : gmap string pv_value) (force : bool).

(** [do_restore] up to its first call of [snapshot.restore_pvs]. *)
Definition do_restore (selected_files : list string)
    (files : gmap string file_data) (mcr : macros) (force : bool)
    (pvs_list : option (list string)) : restore_call :=
  match selected_files with
  | [f] =>
      match files !! f with
      | Some data =>
          let pvs_in_file := fd_pvs_list data in
          let pvs_to_restore :=
            match pvs_list with
            | Some l => remove_unfiltered mcr l pvs_in_file
            | None => pvs_in_file
            end in
          RestorePvs pvs_to_restore force
      | None => ProblemReading
      end
  | _ => NoFileSelected
  end.

(** *** The scan of the directory ([get_save_files]) *)

(** [(file_name not in current_files) or
     (current_files[file_name]["modif_time"] != os.path.getmtime(file_path))] *)
Definition new_or_modified (current_files : gmap string file_data) (c : save_file) : bool :=
  match current_files !! sf_name c with
  | None => true
  | Some data => bool_decide (fd_modif_time data ≠ sf_mtime c)
  end.

(** [("req_file_name" in meta_data and meta_data["req_file_name"] == req_file_name)
     or file_name.startswith(req_file_name.split(".")[0] + "_")] *)
Definition belongs_to_request (req_file_name : string) (c : save_file) : bool :=
  match md_req_file_name (sf_meta_data c) with
  | Some r => String.eqb r req_file_name
  | None => false
  end
  || startswith (sf_name c) (split_head "." req_file_name +:+ "_").

(** The two [if ... not in meta_data] defaults. *)
Definition with_defaults (m : meta_data) : meta_data :=
  {| md_comment := Some (default "" (md_comment m));
     md_labels := Some (default [] (md_labels m));
     md_req_file_name := md_req_file_name m |}.

(** What is stored under [parsed_save_files[file_name]]. *)
Definition parsed_entry (c : save_file) : file_data :=
  {| fd_pvs_list := sf_pvs_list c;
     fd_meta_data := with_defaults (sf_meta_data c);
     fd_modif_time := sf_mtime c;
     fd_file_selector := None |}.

(** The candidate is parsed and kept. *)
Definition accepted (req_file_name : string) (current_files : gmap string file_data)
    (c : save_file) : bool :=
  sf_isfile c && new_or_modified current_files c && belongs_to_request req_file_name c.

(** The [for file_path in glob.glob(...)] loop with its [break]. *)
Fixpoint get_save_files_loop (req_file_name : string)
    (current_files : gmap string file_data) (candidates : list save_file)
    (parsed_save_files : odict file_data) (err_to_report : list (string * list string))
    : odict file_data * list (string * list string) :=
  match candidates with
  | [] => (parsed_save_files, err_to_report)
  | c :: rest =>
      if sf_isfile c then
        if new_or_modified current_files c then
          if belongs_to_request req_file_name c then
            let parsed' := od_set parsed_save_files (sf_name c) (parsed_entry c) in
            let err' :=
              match sf_err c with
              | [] => err_to_report
              | _ => (err_to_report ++ [(sf_name c, sf_err c)])%list
              end in
            if bool_decide (10 < length parsed')%nat then (parsed', err')
            else get_save_files_loop req_file_name current_files rest parsed' err'
          else get_save_files_loop req_file_name current_files rest parsed_save_files err_to_report
        else get_save_files_loop req_file_name current_files rest parsed_save_files err_to_report
      else get_save_files_loop req_file_name current_files rest parsed_save_files err_to_report
  end.

Definition get_save_files (req_file_name : string) (d : save_dir)
    (current_files : gmap string file_data)
    : odict file_data * list (string * list string) :=
  get_save_files_loop req_file_name current_files (glob_req d) [] [].

(** *** Entering the parsed files into the table ([update_file_list_selector]) *)

Definition new_tree_item (id : nat) (time_ : Z) (file comment : string)
    (labels : list string) (meta : option meta_data) : tree_item :=
  {| ti_id := id; ti_time := time_; ti_file := file; ti_comment := comment;
     ti_labels := str_join " " labels; ti_meta := meta; ti_hidden := false |}.

(** [addTopLevelItem] of a new item; returns the identity of the item. *)
Definition add_top_level_item (time_ : Z) (file comment : string)
    (labels : list string) (meta : option meta_data) : M nat :=
  λ σ, let id := next_item σ in
       (Ok id,
        set_next_item (S id)
          (set_file_selector
             (file_selector σ ++ [new_tree_item id time_ file comment labels meta])%list σ)).

(** [setText(0, time_)], [setText(2, comment)] and [setText(3, ...)] on the
    item with the given identity. *)
Definition set_texts (id : nat) (time_ : Z) (comment : string) (labels : list string)
    (it : tree_item) : tree_item :=
  if Nat.eqb (ti_id it) id then
    {| ti_id := ti_id it; ti_time := time_; ti_file := ti_file it;
       ti_comment := comment; ti_labels := str_join " " labels;
       ti_meta := ti_meta it; ti_hidden := ti_hidden it |}
  else it.

Definition with_file_selector (id : nat) (data : file_data) : file_data :=
  {| fd_pvs_list := fd_pvs_list data; fd_meta_data := fd_meta_data data;
     fd_modif_time := fd_modif_time data; fd_file_selector := Some id |}.

(** The entry of a modified file: meta data and values are replaced, the
    modification time and the tree item stay. *)
Definition with_new_content (modified_data old : file_data) : file_data :=
  {| fd_pvs_list := fd_pvs_list modified_data; fd_meta_data := fd_meta_data modified_data;
     fd_modif_time := fd_modif_time old; fd_file_selector := fd_file_selector old |}.

(** [label in self.file_list[f]["meta_data"]["labels"]] for some loaded
    file [f]. *)
Definition label_in_use (files : gmap string file_data) (label : string) : bool :=
  existsb (λ kv : string * file_data,
             bool_decide (label ∈ default [] (md_labels (fd_meta_data kv.2))))
          (map_to_list files).

(** Some loaded file has no "labels" key: the in-use loop raises [KeyError]. *)
Definition some_file_without_labels (files : gmap string file_data) : bool :=
  existsb (λ kv : string * file_data,
             bool_decide (md_labels (fd_meta_data kv.2) = None))
          (map_to_list files).

(** The loop [for label in labels_to_remove: if not in_use[i]: existing_labels.remove(label)]. *)
Fixpoint remove_unused (l : positive) (files : gmap string file_data)
    (labels_to_remove : list string) : M unit :=
  match labels_to_remove with
  | [] => ret ()
  | label :: rest =>
      if label_in_use files label then remove_unused l files rest
      else
        cur <- read_list l ;;
        match list_remove_first label cur with
        | None => raise ValueError
        | Some cur' => write_obj l (PyList cur') ;;; remove_unused l files rest
        end
  end.

(** [if labels_to_remove: ...]: the labels that no loaded file uses any
    more leave the list. *)
Definition prune_labels (l : positive) (labels_to_remove : list string) : M unit :=
  match labels_to_remove with
  | [] => ret ()
  | _ =>
      files' <- gets file_list ;;
      if some_file_without_labels files' then raise KeyError
      else remove_unused l files' labels_to_remove
  end.

(** The body of the loop over [modif_file_list.items()]; returns the
    dictionary entry as it is after the iteration (the entry of a new
    file is the object stored in the table and carries its tree item). *)
Definition update_one (l : positive) (modified_file : string) (modified_data : file_data)
    : M file_data :=
  let meta := fd_meta_data modified_data in
  let labels := default [] (md_labels meta) in
  let comment := "X_" +:+ default "" (md_comment meta) in
  let time_ := fd_modif_time modified_data in
  files <- gets file_list ;;
  match files !! modified_file with
  | None =>
      id <- add_top_level_item time_ modified_file comment labels None ;;
      let stored := with_file_selector id modified_data in
      modify (λ σ, set_file_list (<[modified_file := stored]> (file_list σ)) σ) ;;;
      cur <- read_list l ;;
      write_obj l (PyList (cur ++ set_difference_list labels cur)%list) ;;;
      ret stored
  | Some modified_file_ref =>
      match md_labels (fd_meta_data modified_file_ref) with
      | None => raise KeyError
      | Some old_labels =>
          let labels_to_add := set_difference_list labels old_labels in
          let labels_to_remove := set_difference_list old_labels labels in
          cur <- read_list l ;;
          write_obj l (PyList (cur ++ labels_to_add)%list) ;;;
          modify (λ σ, set_file_list
                         (<[modified_file := with_new_content modified_data modified_file_ref]>
                            (file_list σ)) σ) ;;;
          prune_labels l labels_to_remove ;;;
          match fd_file_selector modified_file_ref with
          | None => raise KeyError
          | Some id =>
              modify (λ σ, set_file_selector
                             (map (set_texts id time_ comment labels) (file_selector σ)) σ) ;;;
              ret modified_data
          end
      end
  end.

Fixpoint update_loop (l : positive) (modif_file_list : odict file_data)
    : M (odict file_data) :=
  match modif_file_list with
  | [] => ret []
  | (modified_file, modified_data) :: rest =>
      data' <- update_one l modified_file modified_data ;;
      rest' <- update_loop l rest ;;
      ret ((modified_file, data') :: rest')
  end.

Definition update_file_list_selector (modif_file_list : odict file_data)
    : M (odict file_data) :=
  existing_labels <- gets existing_labels ;;
  update_loop existing_labels modif_file_list.

(** *** The row filter as a method ([filter_file_list_selector]) *)

Definition filter_file_list_selector : M unit :=
  λ σ, let '(r, items) := filter_items (filter_input σ) (file_selector σ) in
       (r, set_file_selector items σ).

(** *** The index file ([gen_index_file]) *)

(** A file opened in text mode: its content and the position of the
    next write. *)
Record text_stream := {
  ts_data : string;
  ts_pos : nat
}.

Definition str_take (n : nat) (s : string) : string := String.substring 0 n s.
Definition str_drop (n : nat) (s : string) : string :=
  String.substring n (String.length s - n) s.

(** [f.write(s)]: overwrites from the position on and extends the file. *)
Definition ts_write (s : string) (f : text_stream) : text_stream :=
  {| ts_data := str_take (ts_pos f) (ts_data f) +:+ s
                +:+ str_drop (ts_pos f + String.length s) (ts_data f);
     ts_pos := ts_pos f + String.length s |}.

Definition ts_tell (f : text_stream) : Z := Z.of_nat (ts_pos f).

(** [f.seek(target)]: a negative target raises [ValueError]. *)
Definition ts_seek (target : Z) (f : text_stream) : result text_stream :=
  if bool_decide (target < 0) then Raise ValueError
  else Ok {| ts_data := ts_data f; ts_pos := Z.to_nat target |}.

Definition nl : string := String "010"%char EmptyString.
Definition dquote : string := String "034"%char EmptyString.

(** The line written for one file:
    ['["'+os.path.basename(file_path)+'",'+ln[1:-1]+'],\n'] *)
Definition index_line (c : save_file) : string :=
  "[" +:+ dquote +:+ sf_name c +:+ dquote +:+ "," +:+ slice_1_m1 (sf_first_line c)
  +:+ "]," +:+ nl.

(** The JSON pair of one file in the finished index: the name and the
    header. *)
Definition index_entry (c : save_file) : string :=
  "[" +:+ dquote +:+ sf_name c +:+ dquote +:+ "," +:+ slice_1_m1 (sf_first_line c) +:+ "]".

(** The loop over the glob; [open] of a path that is not a file raises. *)
Fixpoint write_index_lines (candidates : list save_file) (outStream : text_stream)
    : result text_stream :=
  match candidates with
  | [] => Ok outStream
  | c :: rest =>
      if sf_isfile c then write_index_lines rest (ts_write (index_line c) outStream)
      else Raise OSError
  end.

(** The content of the index file when the method returns. *)
Definition gen_index_file (d : save_dir) : result string :=
  let outStream := ts_write ("[" +:+ nl) {| ts_data := ""; ts_pos := 0 |} in
  match write_index_lines (glob_idx d) outStream with
  | Raise e => Raise e
  | Ok outStream =>
      match ts_seek (ts_tell outStream - 3) outStream with
      | Raise e => Raise e
      | Ok outStream => Ok (ts_data (ts_write ("]" +:+ nl +:+ "]" +:+ nl) outStream))
      end
  end.

(** *** Listing the files of the index ([start_file_list_update_new]) *)

(** [os.path.getmtime(os.path.join(save_dir, fn))] *)
Definition getmtime (d : save_dir) (fn : string) : result Z :=
  match find (λ c, String.eqb (sf_name c) fn) (glob_idx d ++ glob_req d)%list with
  | Some c => Ok (sf_mtime c)
  | None => Raise OSError
  end.

(** The loop [for fn,meta in idx_data] with its counter [n]; [labels_ref]
    is the object the local variable [existing_labels] is bound to. *)
Fixpoint index_loop (d : save_dir) (labels_ref : positive) (fnSet : gset string)
    (idx_data : list (string * meta_data)) (n : nat) : M unit :=
  match idx_data with
  | [] => ret ()
  | (fn, meta) :: rest =>
      if bool_decide (fn ∈ fnSet) then index_loop d labels_ref fnSet rest n
      else
        let labels := default [] (md_labels meta) in
        let comment := default "" (md_comment meta) in
        modTime <- lift (getmtime d fn) ;;
        add_top_level_item modTime fn comment labels (Some meta) ;;;
        set_update labels_ref labels ;;;
        if bool_decide (10 < S n)%nat then ret ()
        else index_loop d labels_ref fnSet rest (S n)
  end.

Definition start_file_list_update_new (d : save_dir) : M unit :=
  labels_ref <- gets existing_labels ;;     (* existing_labels = self.common_settings[...] *)
  labels_ref <- new_set_of labels_ref ;;    (* existing_labels = set(existing_labels) *)
  text <- lift (gen_index_file d) ;;
  idx_data <- lift (json_load text) ;;
  items <- gets file_selector ;;
  let fnSet : gset string := list_to_set (map ti_file items) in
  index_loop d labels_ref fnSet idx_data 0.

(** *** Reconciliation ([start_file_list_update]) *)

(** [req_file_name] is [os.path.basename(common_settings["req_file_path"])].
    The message box for the errors to report changes no state. *)
Definition start_file_list_update (req_file_name : string) (d : save_dir)
    : M (odict file_data) :=
  current_files <- gets file_list ;;
  let '(save_files, err_to_report) := get_save_files req_file_name d current_files in
  updated_files <- update_file_list_selector save_files ;;
  filter_file_list_selector ;;;
  start_file_list_update_new d ;;;
  ret updated_files.

(** *** Deleting files ([evt_delete_files]) *)

(** [takeTopLevelItem] of the first item whose file column is [f];
    [None] when [findItems] finds nothing. *)
Fixpoint take_item (f : string) (items : list tree_item) : option (list tree_item) :=
  match items with
  | [] => None
  | it :: rest =>
      if String.eqb (ti_file it) f then Some rest
      else match take_item f rest with
           | Some rest' => Some (it :: rest')
           | None => None
           end
  end.

(** The loop over the selected files; [os_remove f] tells whether
    [os.remove] succeeds, its [OSError] is caught and only shown. *)
Fixpoint delete_loop (os_remove : string → bool) (selected_files : list string) : M unit :=
  match selected_files with
  | [] => ret ()
  | selected_file :: rest =>
      if os_remove selected_file then
        files <- gets file_list ;;
        match files !! selected_file with
        | None => raise KeyError
        | Some _ =>
            modify (λ σ, set_file_list (delete selected_file (file_list σ)) σ) ;;;
            items <- gets file_selector ;;
            match take_item selected_file items with
            | None => raise IndexError
            | Some items' =>
                modify (set_file_selector items') ;;;
                delete_loop os_remove rest
            end
        end
      else delete_loop os_remove rest
  end.

Definition evt_delete_files (selected_files : list string) (reply_yes : bool)
    (os_remove : string → bool) : M unit :=
  match selected_files with
  | [] => ret ()
  | _ => if reply_yes then delete_loop os_remove selected_files else ret ()
  end.

(** *** The label bookkeeping the spec asks for *)

(** The labels offered as suggestions: the content of the shared list. *)
Definition suggested_labels (σ : gui_state) : list string :=
  match objs σ !! existing_labels σ with
  | Some (PyList l) => l
  | _ => []
  end.

(** Some file of the table carries the label. *)
Definition label_used (σ : gui_state) (label : string) : Prop :=
  ∃ f data labels, file_list σ !! f = Some data
                   ∧ md_labels (fd_meta_data data) = Some labels ∧ label ∈ labels.

(** A label is suggested exactly when a file of the table carries it. *)
Definition labels_consistent (σ : gui_state) : Prop :=
  ∀ label, label ∈ suggested_labels σ ↔ label_used σ label.

(** *** The button "Restore Filtered" ([start_restore_filtered]) *)

(** [n_snapshot_pvs] is [len(self.snapshot.pvs)]; [None] when no restore
    is started. *)
Definition start_restore_filtered (n_snapshot_pvs : nat) (filtered_pvs : list string)
    (selected_files : list string) (files : gmap string file_data) (mcr : macros)
    (force : bool) : option restore_call :=
  let filtered_n := length filtered_pvs in
  if Nat.eqb filtered_n n_snapshot_pvs then
    Some (do_restore selected_files files mcr force None)
  else if negb (Nat.eqb filtered_n 0) then
    Some (do_restore selected_files files mcr force (Some filtered_pvs))
  else None.

(** *** Clearing the selector and the button "Refresh" *)

(** [clear_file_selector]: the tree and the table are emptied. *)
Definition clear_file_selector : M unit :=
  modify (λ σ, set_file_list ∅ (set_file_selector [] σ)).

(** [clear_update_files]: [clear_file_selector] followed by [update_files],
    which emits the result of [start_file_list_update]. *)
Definition clear_update_files (req_file_name : string) (d : save_dir)
    : M (odict file_data) :=
  clear_file_selector ;;; start_file_list_update req_file_name d.

(** *** Well-formed states *)

(** The shared reference holds a list, every file of the table has its
    tree item and its labels, and each of its labels is in the list. *)
Definition table_wf (σ : gui_state) : Prop :=
  ∃ ls, objs σ !! existing_labels σ = Some (PyList ls)
        ∧ ∀ f data, file_list σ !! f = Some data →
            is_Some (fd_file_selector data)
            ∧ ∃ labels, md_labels (fd_meta_data data) = Some labels
                        ∧ ∀ label, label ∈ labels → label ∈ ls.

(** *** Idempotent reconciliation, as the spec states it *)

(** Whenever a reconciliation returns, a second one on the same
    directory returns an empty changed-set and leaves the table and the
    rows of the tree as they were. *)
Definition reconcile_idempotent (req_file_name : string) (d : save_dir) (σ : gui_state)
    : Prop :=
  ∀ u1 σ1,
    start_file_list_update req_file_name d σ = (Ok u1, σ1) →
    ∃ σ2, start_file_list_update req_file_name d σ1 = (Ok [], σ2)
          ∧ file_list σ2 = file_list σ1
          ∧ same_rows (file_selector σ2) (file_selector σ1).

End Embedding.

Arguments file_data : clear implicits.
Arguments save_file : clear implicits.
Arguments save_dir : clear implicits.
Arguments gui_state : clear implicits.
Arguments restore_call : clear implicits.
Arguments M : clear implicits.

(** ** The report of the files loaded with errors ([start_file_list_update]) *)

(** [s[:-2]] *)
Definition drop_last_two (s : string) : string :=
  String.substring 0 (String.length s - 2) s.

(** The text added to [err_details] for one file with errors. *)
Definition err_block (item : string * list string) : string :=
  "- - - " +:+ item.1 +:+ " - - -" +:+ nl +:+ " * "
  +:+ str_join (nl +:+ " * ") item.2 +:+ nl +:+ nl.

(** The loop [for item in err_to_report: if item[1]: err_details += ...]. *)
Definition err_details_loop (err_to_report : list (string * list string)) (acc : string)
    : string :=
  foldl (λ err_details item,
           match item.2 with
           | [] => err_details
           | _ => err_details +:+ err_block item
           end) acc err_to_report.

(** [err_details] when the message box is about to be decided on; the
    box is shown when this text is not empty. *)
Definition err_details (err_to_report : list (string * list string)) : string :=
  match err_to_report with
  | [] => ""
  | _ => drop_last_two (err_details_loop err_to_report "")
  end.

(** ** The suggestions of the selector of labels ([SnapshotKeywordSelectorWidget]) *)

(** [update_suggested_keywords]: the items of the combo box afterwards;
    [labels.sort()] orders strings by their characters. *)
Definition update_suggested_keywords (defaults_only : bool)
    (default_labels existing_labels : list string) : list string :=
  let labels := (default_labels ++ if defaults_only then [] else existing_labels)%list in
  (if defaults_only then "Select labels ..." else "") :: merge_sort String.le labels.

(** ** Sample inputs *)

(** Saved values are kept as text in the samples, and a macro list is a
    list of pairs; the sample substitution replaces a name that is itself
    a macro key by its value. *)
Definition sample_substitution (pvname : string) (mcr : list (string * string)) : string :=
  default pvname (od_get mcr pvname).

Definition status_type_then_access : odict PvStatus :=
  [("A", type_err); ("B", access_err)].

Definition status_access_then_type : odict PvStatus :=
  [("B", access_err); ("A", type_err)].

Definition meta_a : meta_data :=
  {| md_comment := Some "baseline"; md_labels := Some ["shift1"]; md_req_file_name := None |}.

Definition meta_b : meta_data :=
  {| md_comment := Some ""; md_labels := Some ["shift1"; "shift2"]; md_req_file_name := None |}.

Definition item_a : tree_item := new_tree_item 0 100 "a.snap" "baseline" ["shift1"] (Some meta_a).
Definition item_b : tree_item := new_tree_item 1 200 "b.snap" "" ["shift1"; "shift2"] (Some meta_b).

Definition filter_comment_zzz : file_filter :=
  {| ff_keys := []; ff_comment := "zzz"; ff_name := "" |}.

Definition filter_base_name_a : file_filter :=
  {| ff_keys := []; ff_comment := "base"; ff_name := "a" |}.

Definition filter_base_name_snap : file_filter :=
  {| ff_keys := []; ff_comment := "base"; ff_name := "snap" |}.


Definition sample_pvs : gmap string string :=
  <["$(SYS):CURRENT" := "1.5"]> (<["DEV:VOLTAGE" := "230"]> (<["DEV:STATE" := "on"]> ∅)).

Definition sample_macros : list (string * string) := [("$(SYS):CURRENT", "LAB:CURRENT")].

Definition sample_file : file_data string :=
  {| fd_pvs_list := sample_pvs; fd_meta_data := meta_a; fd_modif_time := 100;
     fd_file_selector := Some 0%nat |}.

(** The first line of a save file: "#", the header as a JSON object with
    the keys that are present, and a newline. *)
Definition json_str (s : string) : string := dquote +:+ s +:+ dquote.

Definition header_fields (m : meta_data) : list string :=
  (match md_comment m with
   | Some c => [json_str "comment" +:+ ": " +:+ json_str c]
   | None => []
   end
   ++ match md_labels m with
      | Some ls => [json_str "labels" +:+ ": [" +:+ str_join ", " (map json_str ls) +:+ "]"]
      | None => []
      end
   ++ match md_req_file_name m with
      | Some r => [json_str "req_file_name" +:+ ": " +:+ json_str r]
      | None => []
      end)%list.

Definition header_line (m : meta_data) : string :=
  "#{" +:+ str_join ", " (header_fields m) +:+ "}" +:+ nl.

(** A save file without values or parse errors, whose first line is the
    header of its meta data. *)
Definition sample_save_file (name : string) (mtime : Z) (meta : meta_data)
    : save_file string :=
  {| sf_name := name; sf_isfile := true; sf_mtime := mtime;
     sf_first_line := header_line meta; sf_pvs_list := ∅; sf_meta_data := meta;
     sf_err := [] |}.

(** [json.load] on the samples: the index text of the directory [d]
    decodes to the names and headers of its files, any other text is
    rejected. *)
Definition sample_json_load (d : save_dir string) (text : string)
    : result (list (string * meta_data)) :=
  match gen_index_file d with
  | Ok index_text =>
      if String.eqb text index_text
      then Ok (map (λ c, (sf_name c, sf_meta_data c)) (glob_idx d))
      else Raise JSONDecodeError
  | Raise _ => Raise JSONDecodeError
  end.

Definition dir_empty : save_dir string := {| glob_req := []; glob_idx := [] |}.

(** A save file named after the request file "test.req" whose header
    names another request file. *)
Definition meta_other_request : meta_data :=
  {| md_comment := Some "night run"; md_labels := Some [];
     md_req_file_name := Some "other.req" |}.

Definition file_of_other_request : save_file string :=
  sample_save_file "test_1.snap" 100 meta_other_request.

Definition dir_other_request : save_dir string :=
  {| glob_req := [file_of_other_request]; glob_idx := [file_of_other_request] |}.

(** The state of the widget before the first scan: nothing in the table,
    nothing in the tree, an empty list of existing labels. *)
Definition initial_state : gui_state string :=
  {| file_list := ∅; file_selector := []; next_item := 0; filter_input := clear_filter;
     objs := {[ 1%positive := PyList [] ]}; existing_labels := 1%positive |}.

(** A save file of the request file "test.req" whose header has neither
    a comment nor labels. *)
Definition file_bare : save_file string :=
  sample_save_file "test_bare.snap" 300 empty_meta.

Definition dir_bare : save_dir string :=
  {| glob_req := [file_bare]; glob_idx := [file_bare] |}.

(** The directory of the example of the spec, with the file names of the
    request file "test.req": one file labelled shift1, one labelled
    shift1 and shift2. *)
Definition file_a : save_file string := sample_save_file "test_a.snap" 100 meta_a.
Definition file_b : save_file string := sample_save_file "test_b.snap" 200 meta_b.

Definition dir_ab : save_dir string :=
  {| glob_req := [file_a; file_b]; glob_idx := [file_a; file_b] |}.

(** The same directory after "test_b.snap" was deleted by someone else. *)
Definition dir_a : save_dir string :=
  {| glob_req := [file_a]; glob_idx := [file_a] |}.

(** The state after both files were scanned and entered into the table. *)
Definition state_ab : gui_state string :=
  (update_file_list_selector
     (get_save_files "test.req" dir_ab (file_list initial_state)).1 initial_state).2.



(** The state after the user deleted "test_b.snap" through the context
    menu ([os.remove] succeeded). *)
Definition state_b_deleted : gui_state string :=
  (evt_delete_files ["test_b.snap"] true (λ _, true) state_ab).2.

(** Twelve save files of the request file "test.req" with empty headers. *)
Definition dir12 : save_dir string :=
  let files := map (λ n, sample_save_file ("test_" +:+ n +:+ ".snap") 100 empty_meta)
                 ["01"; "02"; "03"; "04"; "05"; "06"; "07"; "08"; "09"; "10"; "11"; "12"] in
  {| glob_req := files; glob_idx := files |}.

(** The first reconciliation of a directory from the initial state. *)
Definition first_run (d : save_dir string)
    : result (odict (file_data string)) * gui_state string :=
  start_file_list_update (sample_json_load d) "test.req" d initial_state.

Definition changed_of (r : result (odict (file_data string))) : odict (file_data string) :=
  match r with Ok u => u | Raise _ => [] end.

(** The directory after "test_a.snap" was written again (new modification
    time) and "test_b.snap" left alone, and the state after the table
    update that follows. *)
Definition dir_a_touched : save_dir string :=
  let touched := sample_save_file "test_a.snap" 150 meta_a in
  {| glob_req := [touched; file_b]; glob_idx := [touched; file_b] |}.

Definition state_a_touched : gui_state string :=
  (update_file_list_selector
     (get_save_files "test.req" dir_a_touched (file_list state_ab)).1 state_ab).2.

(** A save file of "test.req" for which the parser returns an error. *)
Definition file_err : save_file string :=
  {| sf_name := "test_err.snap"; sf_isfile := true; sf_mtime := 400;
     sf_first_line := header_line meta_a; sf_pvs_list := ∅; sf_meta_data := meta_a;
     sf_err := ["DEV:STATE: value cannot be parsed"] |}.

Definition dir_err : save_dir string :=
  {| glob_req := [file_a; file_err]; glob_idx := [file_a; file_err] |}.

(* ===================================================================== *)
(** * Part II: properties *)
(* ===================================================================== *)

(** ** Strings *)

Lemma prefix_spec (p s : string) :
  String.prefix p s = true ↔ ∃ post, s = p +:+ post.
Proof.
  revert p. induction s as [|c s IH]; intros [|d p]; simpl.
  - split; [exists ""; done | done].
  - split; [done | intros [post H]; discriminate].
  - split; [eexists; done | done].
  - destruct (Ascii.ascii_dec d c) as [->|Hne].
    + rewrite IH. split.
      * intros [post ->]. exists post. done.
      * intros [post H]. exists post. by injection H.
    + split; [done | intros [post H]; injection H; congruence].
Qed.

(** [str_in] is the substring relation. *)
Lemma str_in_spec (sub s : string) :
  str_in sub s = true ↔ ∃ pre post, s = pre +:+ sub +:+ post.
Proof.
  induction s as [|c s IH].
  - change (str_in sub "") with (String.prefix sub "" || false).
    rewrite orb_false_r, prefix_spec. split.
    + intros [post ->]. exists "", post. done.
    + intros [[|d pre] [post H]]; [exists post; done | discriminate].
  - change (str_in sub (String c s)) with (String.prefix sub (String c s) || str_in sub s).
    rewrite orb_true_iff, prefix_spec, IH. split.
    + intros [[post ->] | (pre & post & ->)].
      * exists "", post. done.
      * exists (String c pre), post. done.
    + intros [[|d pre] [post H]].
      * left. exists post. done.
      * right. simpl in H. injection H as -> ->. exists pre, post. done.
Qed.

Lemma str_in_empty (s : string) : str_in "" s = true.
Proof. apply str_in_spec. exists "", s. done. Qed.

Lemma string_length_app (a b : string) :
  String.length (a +:+ b) = (String.length a + String.length b)%nat.
Proof. induction a as [|c a IH]; simpl; [done | by rewrite IH]. Qed.

(** ** The aggregated restore result *)

Lemma restore_done_error (status : odict PvStatus) (forced : bool) :
  rr_error (restore_done status forced)
  = rl_error (foldl (restore_done_step forced)
                {| rl_error := false; rl_msgs := []; rl_status_txt := "";
                   rl_status_background := "" |} status).
Proof. unfold restore_done. by destruct (rl_error _). Qed.

(** Without force mode the loop computes the error state of the spec. *)
Lemma restore_done_unforced (status : odict PvStatus) :
  rr_error (restore_done status false) = spec_error_state status false.
Proof.
  rewrite restore_done_error. unfold spec_error_state, some_status.
  assert (G : ∀ st, rl_error (foldl (restore_done_step false) st status)
                = rl_error st || (existsb (λ it, bool_decide (it.2 = type_err)) status
                   || existsb (λ it, bool_decide (it.2 = access_err)) status && negb false)).
  { induction status as [|[pv sts] status IH]; intros st; simpl.
    - by rewrite orb_false_r.
    - rewrite IH. unfold restore_done_step.
      destruct sts; simpl; rewrite ?andb_true_r, ?orb_true_r; done. }
  by rewrite G.
Qed.

(** C4: with force mode on, a type error reported before an access error
    is forgotten: the batch [A: type_err, B: access_err] ends without the
    error state the spec asks for, and the same two outcomes delivered in
    the other order end in the error state. *)
Theorem restore_done_forgets_type_err :
  rr_error (restore_done status_type_then_access true) = false
  ∧ rr_status_txt (restore_done status_type_then_access true) = "Restore done"
  ∧ spec_error_state status_type_then_access true = true
  ∧ rr_error (restore_done status_access_then_type true) = true.
Proof. repeat split. Qed.

(** ** The row filter *)

(** C1: the comment test of the filter reads the name filter. With an
    empty name filter and the comment filter "zzz", the row of a file
    whose comment is "baseline" stays visible, although "zzz" does not
    occur in the comment; and with the comment filter "base", which does
    occur in it, the row is shown or hidden according to the name filter
    ("a" or "snap", both of which occur in the file name "a.snap"). *)
Theorem comment_test_reads_name_filter :
  row_hidden filter_comment_zzz item_a = Ok false
  ∧ spec_comment_passes (ff_comment filter_comment_zzz) "baseline" = false
  ∧ row_hidden filter_base_name_a item_a = Ok false
  ∧ row_hidden filter_base_name_snap item_a = Ok true
  ∧ name_test (ff_name filter_base_name_snap) (ti_file item_a) = false
  ∧ spec_comment_passes (ff_comment filter_base_name_snap) "baseline" = true.
Proof. repeat split. Qed.

(** What the comment test computes for a non-empty comment filter. *)
Lemma comment_test_nonempty (comment_filter name_filter comment : string) (meta : meta_data) :
  str_truthy comment_filter = true →
  md_comment meta = Some comment →
  comment_test comment_filter name_filter meta = Ok (negb (str_in name_filter comment)).
Proof. intros Hc Hm. unfold comment_test. by rewrite Hc, Hm. Qed.

Lemma labels_test_false (keys_filter : gset string) (meta : meta_data) :
  labels_test keys_filter meta = Ok false →
  keys_filter = ∅
  ∨ ∃ labels, md_labels meta = Some labels ∧ keys_filter ⊆ list_to_set labels.
Proof.
  unfold labels_test. case_bool_decide as Hne.
  - destruct (md_labels meta) as [labels|]; [|done].
    case_bool_decide as Hsub; [|done]. intros _. right. by exists labels.
  - intros _. left. by destruct (decide (keys_filter = ∅)).
Qed.

Lemma row_hidden_false (ff : file_filter) (item : tree_item) :
  row_hidden ff item = Ok false →
  labels_test (list_to_set (ff_keys ff)) (default empty_meta (ti_meta item)) = Ok false.
Proof.
  unfold row_hidden. destruct (name_test _ _); [done|].
  destruct (comment_test _ _ _) as [[]|]; [done| |done].
  by destruct (labels_test _ _) as [[]|].
Qed.

(** A row for which the loop computes "visible" while a label is asked
    for has item data with labels, and the label is among them. *)
Lemma row_visible_has_labels (ff : file_filter) (item : tree_item) (key : string) :
  key ∈ ff_keys ff →
  row_hidden ff item = Ok false →
  ∃ meta labels, ti_meta item = Some meta ∧ md_labels meta = Some labels ∧ key ∈ labels.
Proof.
  intros Hkey Hvis.
  apply row_hidden_false, labels_test_false in Hvis as [Hempty | (labels & Hl & Hsub)].
  - set_solver.
  - destruct (ti_meta item) as [meta|]; [|done].
    exists meta, labels. split; [done|]. split; [done|]. set_solver.
Qed.

(** A row without item data: [meta] is replaced by an empty dict, whose
    [get] returns [None], so that the comment test and the label test
    raise as soon as they are reached. *)
Lemma row_hidden_no_meta (ff : file_filter) (item : tree_item) :
  ti_meta item = None →
  row_hidden ff item
  = if name_test (ff_name ff) (ti_file item) then Ok true
    else if str_truthy (ff_comment ff) || bool_decide (ff_keys ff ≠ [])
         then Raise TypeError else Ok false.
Proof.
  intros Hmeta. unfold row_hidden. rewrite Hmeta. simpl.
  destruct (name_test _ _); [done|].
  unfold comment_test, labels_test. simpl.
  destruct (str_truthy (ff_comment ff)); [done|]. simpl.
  destruct (ff_keys ff) as [|k ks].
  - rewrite bool_decide_eq_false_2 by (intros H; by apply H).
    by rewrite (bool_decide_eq_false_2 ([] ≠ [])) by (intros H; by apply H).
  - rewrite bool_decide_eq_true_2; [by rewrite bool_decide_eq_true_2|].
    intros Hempty. apply (not_elem_of_empty (C:=gset string) k).
    rewrite <- Hempty. apply elem_of_list_to_set. left.
Qed.

(** The loop over the rows when it returns: every row has the flag that
    was computed for it. *)
Lemma filter_items_Ok (ff : file_filter) (items items' : list tree_item) :
  filter_items ff items = (Ok (), items') →
  Forall2 (λ item item', row_hidden ff item = Ok (ti_hidden item')
                         ∧ item' = set_hidden (ti_hidden item') item) items items'.
Proof.
  revert items'. induction items as [|item rest IH]; intros items'; simpl.
  - intros [= <-]. constructor.
  - destruct (row_hidden ff item) as [h|e] eqn:Hrow; [|done].
    destruct (filter_items ff rest) as [r rest'] eqn:Hrest.
    intros [= -> <-]. constructor; [done | by apply IH].
Qed.

(** The loop over the rows when it raises: the rows before the raising
    one were gone through, the raising row and the rows after it are as
    they were. *)
Lemma filter_items_Raise (ff : file_filter) (items items' : list tree_item) (e : exn) :
  filter_items ff items = (Raise e, items') →
  ∃ pre pre' item post,
    items = (pre ++ item :: post)%list
    ∧ filter_items ff pre = (Ok (), pre')
    ∧ row_hidden ff item = Raise e
    ∧ items' = (pre' ++ item :: post)%list.
Proof.
  revert items'. induction items as [|item rest IH]; intros items'; simpl; [done|].
  destruct (row_hidden ff item) as [h|e'] eqn:Hrow.
  - destruct (filter_items ff rest) as [r rest'] eqn:Hrest.
    intros [= -> <-].
    destruct (IH rest' eq_refl) as (pre & pre' & it & post & -> & Hpre & Hit & ->).
    exists (item :: pre), (set_hidden h item :: pre'), it, post.
    split; [done|]. split; [|done]. simpl. by rewrite Hrow, Hpre.
  - intros [= -> <-]. by exists [], [], item, rest.
Qed.


(** ** The values handed to a restore *)

Section DoRestore.
Context {macros pv_value : Type}.
Variable macros_substitution : string → macros → string.

Lemma pop_loop_lookup (mcr : macros) (pvs_list : list string) (keys : list string)
    (pvs : gmap string pv_value) (pvname : string) :
  foldl (λ pvs_to_restore pvname,
           if bool_decide (macros_substitution pvname mcr ∉ pvs_list)
           then delete pvname pvs_to_restore
           else pvs_to_restore) pvs keys !! pvname
  = if bool_decide (pvname ∈ keys ∧ macros_substitution pvname mcr ∉ pvs_list)
    then None else pvs !! pvname.
Proof.
  revert pvs. induction keys as [|k keys IH]; intros pvs; cbn [foldl].
  - rewrite bool_decide_eq_false_2; [done|]. intros [H _]. by apply elem_of_nil in H.
  - rewrite IH. clear IH.
    destruct (decide (macros_substitution pvname mcr ∉ pvs_list)) as [Hs|Hs].
    + destruct (decide (pvname ∈ keys)) as [Hin|Hin].
      * rewrite !bool_decide_eq_true_2; [done | split; [by right|done] | done].
      * rewrite (bool_decide_eq_false_2 (pvname ∈ keys ∧ _)) by tauto.
        destruct (decide (k = pvname)) as [->|Hne].
        -- rewrite (bool_decide_eq_true_2 _ Hs), lookup_delete_eq.
           rewrite bool_decide_eq_true_2; [done | split; [left|done]].
        -- rewrite (bool_decide_eq_false_2 (pvname ∈ k :: keys ∧ _)).
           ++ case_bool_decide; [by apply lookup_delete_ne | done].
           ++ intros [[->|?]%elem_of_cons _]; done.
    + rewrite !(bool_decide_eq_false_2 (_ ∧ _)) by tauto.
      case_bool_decide as Hk; [|done].
      apply lookup_delete_ne. by intros ->.
Qed.

(** The loop keeps exactly the stored items whose substituted name is
    in the list. *)
Lemma remove_unfiltered_lookup (mcr : macros) (pvs_list : list string)
    (pvs_in_file : gmap string pv_value) (pvname : string) :
  remove_unfiltered macros_substitution mcr pvs_list pvs_in_file !! pvname
  = if bool_decide (macros_substitution pvname mcr ∈ pvs_list)
    then pvs_in_file !! pvname else None.
Proof.
  unfold remove_unfiltered. rewrite pop_loop_lookup.
  destruct (decide (macros_substitution pvname mcr ∈ pvs_list)) as [Hs|Hs].
  - rewrite (bool_decide_eq_true_2 _ Hs), bool_decide_eq_false_2; [done | tauto].
  - rewrite (bool_decide_eq_false_2 _ Hs).
    case_bool_decide as Hk; [done|].
    destruct (pvs_in_file !! pvname) eqn:E; [|done].
    exfalso. apply Hk. split; [|done].
    apply elem_of_elements, elem_of_dom. eauto.
Qed.

(** C7: with one selected file that is in the table and a subset list,
    the mapping handed to [restore_pvs] holds a stored item exactly when
    its name after macro substitution is in the list, with its stored
    value. *)
Theorem do_restore_subset (files : gmap string (file_data pv_value))
    (selected_file : string) (data : file_data pv_value) (mcr : macros)
    (force : bool) (pvs_list : list string)
    (Hfile : files !! selected_file = Some data) :
  ∃ pvs_to_restore,
    do_restore macros_substitution [selected_file] files mcr force (Some pvs_list)
    = RestorePvs pvs_to_restore force
    ∧ ∀ pvname value,
        pvs_to_restore !! pvname = Some value
        ↔ fd_pvs_list data !! pvname = Some value
          ∧ macros_substitution pvname mcr ∈ pvs_list.
Proof.
  unfold do_restore. rewrite Hfile. eexists. split; [done|].
  intros pvname value. rewrite remove_unfiltered_lookup.
  case_bool_decide as Hs.
  - split; [by intros ? | by intros [? _]].
  - split; [done | by intros [_ ?]].
Qed.
End DoRestore.

Lemma do_restore_subset_witness :
  ∃ pvs_to_restore,
    do_restore sample_substitution ["a.snap"] {["a.snap" := sample_file]} sample_macros false
      (Some ["LAB:CURRENT"; "DEV:STATE"])
    = RestorePvs pvs_to_restore false
    ∧ ∀ pvname value,
        pvs_to_restore !! pvname = Some value
        ↔ fd_pvs_list sample_file !! pvname = Some value
          ∧ sample_substitution pvname sample_macros ∈ ["LAB:CURRENT"; "DEV:STATE"].
Proof.
  apply (do_restore_subset sample_substitution {["a.snap" := sample_file]} "a.snap" sample_file).
  reflexivity.
Defined.

(** On the sample file the item stored as "$(SYS):CURRENT" is kept through
    its substituted name and "DEV:VOLTAGE" is dropped. *)
Example do_restore_sample :
  do_restore sample_substitution ["a.snap"] {["a.snap" := sample_file]} sample_macros false
    (Some ["LAB:CURRENT"; "DEV:STATE"])
  = RestorePvs (<["$(SYS):CURRENT" := "1.5"]> (<["DEV:STATE" := "on"]> ∅)) false.
Proof. vm_compute. reflexivity. Qed.

(** ** The index file *)

Section IndexFile.
Context {pv_value : Type}.
Implicit Types (c : save_file pv_value) (d : save_dir pv_value).

Lemma ts_write_pos (s : string) (f : text_stream) :
  ts_pos (ts_write s f) = (ts_pos f + String.length s)%nat.
Proof. done. Qed.

Lemma index_line_length c : (3 ≤ String.length (index_line c))%nat.
Proof.
  unfold index_line. rewrite !string_length_app. simpl. lia.
Qed.

Lemma write_index_lines_pos (candidates : list (save_file pv_value))
    (f f' : text_stream) :
  write_index_lines candidates f = Ok f' →
  (ts_pos f ≤ ts_pos f')%nat ∧ (candidates ≠ [] → (ts_pos f + 3 ≤ ts_pos f')%nat).
Proof.
  revert f. induction candidates as [|c rest IH]; intros f; simpl.
  - intros [= <-]. split; [lia | done].
  - destruct (sf_isfile c); [|done]. intros [Hle _]%IH.
    rewrite ts_write_pos in Hle. pose proof (index_line_length c). lia.
Qed.

Lemma write_index_lines_ok (candidates : list (save_file pv_value)) (f : text_stream) :
  is_ok (write_index_lines candidates f) = forallb sf_isfile candidates.
Proof.
  revert f. induction candidates as [|c rest IH]; intros f; simpl; [done|].
  destruct (sf_isfile c); [apply IH | done].
Qed.

(** The index file is produced exactly when the glob matches something
    and every match can be opened. *)
Lemma gen_index_file_ok_iff d :
  is_ok (gen_index_file d) = true
  ↔ glob_idx d ≠ [] ∧ forallb sf_isfile (glob_idx d) = true.
Proof.
  unfold gen_index_file.
  pose proof (write_index_lines_ok (glob_idx d)
                (ts_write ("[" +:+ nl) {| ts_data := ""; ts_pos := 0 |})) as Hok.
  destruct (write_index_lines _ _) as [f'|e] eqn:Hw; simpl in Hok.
  - pose proof (write_index_lines_pos _ _ _ Hw) as [Hle Hne]. simpl in Hle, Hne.
    unfold ts_seek, ts_tell. case_bool_decide as Hneg; simpl.
    + split; [done|]. intros [Hcand _]. apply Hne in Hcand. lia.
    + split; [|done]. intros _. split; [|done].
      intros Hnil. rewrite Hnil in Hw. injection Hw as <-. simpl in Hneg. lia.
  - split; [done|]. intros [_ Hall]. congruence.
Qed.

(** C9: when the glob matches no file, the stream holds the two
    characters of the prefix, the target of the seek is -1 and
    [gen_index_file] raises [ValueError]; and whenever [gen_index_file]
    returns an index, the glob has matched at least one file. *)
Theorem gen_index_file_no_candidate d (Hnone : glob_idx d = []) :
  ts_tell (ts_write ("[" +:+ nl) {| ts_data := ""; ts_pos := 0 |}) - 3 = -1
  ∧ gen_index_file d = Raise ValueError
  ∧ ∀ d' text, gen_index_file d' = Ok text → glob_idx d' ≠ [].
Proof.
  split; [done|]. split.
  - unfold gen_index_file. rewrite Hnone. done.
  - intros d' text Hd'. apply (gen_index_file_ok_iff d'). by rewrite Hd'.
Qed.
End IndexFile.

Lemma gen_index_file_no_candidate_witness :
  gen_index_file dir_empty = Raise ValueError.
Proof.
  exact (proj1 (proj2 (gen_index_file_no_candidate dir_empty eq_refl))).
Defined.

(** ** The shared list of labels and [start_file_list_update_new] *)

Section IndexPass.
Context {pv_value : Type}.
Variable json_load : string → result (list (string * meta_data)).
Implicit Types (σ : gui_state pv_value) (d : save_dir pv_value).

(** The loop touches the tree and the object behind [labels_ref] only. *)
Lemma index_loop_frame d (labels_ref : positive) (fnSet : gset string)
    (idx_data : list (string * meta_data)) (n : nat) σ :
  let σ' := (index_loop d labels_ref fnSet idx_data n σ).2 in
  existing_labels σ' = existing_labels σ
  ∧ file_list σ' = file_list σ
  ∧ filter_input σ' = filter_input σ
  ∧ ∀ l, l ≠ labels_ref → objs σ' !! l = objs σ !! l.
Proof.
  revert n σ. induction idx_data as [|[fn meta] rest IH]; intros n σ; simpl.
  - done.
  - case_bool_decide as Hfn; [apply IH|].
    unfold bind, lift. destruct (getmtime d fn) as [modTime|e]; [|done].
    unfold add_top_level_item, set_update. simpl.
    destruct (objs σ !! labels_ref) as [[x|s]|] eqn:Hobj; [done| |done].
    simpl. case_bool_decide as Hn.
    + simpl. repeat split. intros l Hl. by rewrite lookup_insert_ne.
    + match goal with
      | |- context [index_loop d labels_ref fnSet rest (S n) ?σ1] =>
          destruct (IH (S n) σ1) as (He & Hf & Hff & Ho)
      end.
      simpl in *. rewrite He, Hf, Hff. repeat split.
      intros l Hl. rewrite Ho by done. by rewrite lookup_insert_ne.
Qed.

(** The index pass allocates one object and changes no other. *)
Lemma start_file_list_update_new_frame d σ :
  let σ' := (start_file_list_update_new json_load d σ).2 in
  existing_labels σ' = existing_labels σ
  ∧ (∀ l, is_Some (objs σ !! l) → objs σ' !! l = objs σ !! l)
  ∧ file_list σ' = file_list σ
  ∧ filter_input σ' = filter_input σ.
Proof.
  unfold start_file_list_update_new, bind, gets, new_set_of, lift. simpl.
  destruct (objs σ !! existing_labels σ) as [o|] eqn:Hshared; [|done].
  simpl. destruct (gen_index_file d) as [text|e]; [|simpl].
  - destruct (json_load text) as [idx_data|e]; simpl.
    + match goal with
      | |- context [index_loop d ?r ?s idx_data 0%nat ?σ1] =>
          destruct (index_loop_frame d r s idx_data 0%nat σ1) as (He & Hf & Hff & Ho)
      end.
      simpl in *. rewrite He, Hf, Hff. repeat split.
      intros l Hl. rewrite Ho.
      * apply lookup_insert_ne. intros <-.
        apply elem_of_dom in Hl. by apply is_fresh in Hl.
      * intros ->. apply elem_of_dom in Hl. by apply is_fresh in Hl.
    + repeat split. intros l Hl. apply lookup_insert_ne. intros <-.
      apply elem_of_dom in Hl. by apply is_fresh in Hl.
  - repeat split. intros l Hl. apply lookup_insert_ne. intros <-.
    apply elem_of_dom in Hl. by apply is_fresh in Hl.
Qed.

(** C10: whatever [start_file_list_update_new] does and however it
    ends, [common_settings["existing_labels"]] refers to the same
    object afterwards and no object that existed before the call has
    changed; in particular the shared list of suggested labels is what
    it was, and so is the table of files. *)
Theorem start_file_list_update_new_keeps_existing_labels d σ :
  let σ' := (start_file_list_update_new json_load d σ).2 in
  existing_labels σ' = existing_labels σ
  ∧ (∀ l, is_Some (objs σ !! l) → objs σ' !! l = objs σ !! l)
  ∧ suggested_labels σ' = suggested_labels σ
  ∧ file_list σ' = file_list σ.
Proof.
  destruct (start_file_list_update_new_frame d σ) as (He & Ho & Hf & _).
  repeat split; try done.
  unfold suggested_labels. simpl in *. rewrite He.
  destruct (objs σ !! existing_labels σ) as [o|] eqn:Hshared.
  - by rewrite Ho, Hshared.
  - revert Hshared. clear.
    unfold start_file_list_update_new, bind, gets, new_set_of. simpl.
    intros Hnone. rewrite Hnone. simpl. by rewrite Hnone.
Qed.
End IndexPass.

(** ** Insertion-ordered dictionaries *)

Section Odict.
Context {V : Type}.
Implicit Types (d : odict V) (k : string) (v : V).

Lemma od_set_fresh d k v : k ∉ od_keys d → od_set d k v = (d ++ [(k, v)])%list.
Proof.
  induction d as [|[k' v'] d IH]; simpl; [done|].
  intros Hk. apply not_elem_of_cons in Hk as [Hne Hk].
  destruct (String.eqb_spec k' k) as [->|_]; [done|]. by rewrite IH.
Qed.

Lemma od_get_set d k v : od_get (od_set d k v) k = Some v.
Proof.
  induction d as [|[k' v'] d IH]; simpl.
  - by rewrite String.eqb_refl.
  - destruct (String.eqb_spec k' k) as [->|Hne]; simpl.
    + by rewrite String.eqb_refl.
    + destruct (String.eqb_spec k' k); [done | apply IH].
Qed.

Lemma od_get_set_ne d k k' v : k ≠ k' → od_get (od_set d k v) k' = od_get d k'.
Proof.
  intros Hne. induction d as [|[k0 v0] d IH]; simpl.
  - by destruct (String.eqb_spec k k').
  - destruct (String.eqb_spec k0 k) as [->|Hne0]; simpl.
    + by destruct (String.eqb_spec k k').
    + by rewrite IH.
Qed.

Lemma od_length_set d k v : (length d ≤ length (od_set d k v))%nat.
Proof.
  induction d as [|[k' v'] d IH]; simpl; [lia|].
  destruct (String.eqb k' k); simpl; lia.
Qed.

Lemma od_get_None d k : od_get d k = None ↔ k ∉ od_keys d.
Proof.
  induction d as [|[k' v'] d IH]; simpl.
  - split; [intros _; apply not_elem_of_nil | done].
  - rewrite not_elem_of_cons.
    destruct (String.eqb_spec k' k) as [->|Hne]; [naive_solver|].
    rewrite IH. naive_solver.
Qed.

Lemma od_get_Some_elem d k v : od_get d k = Some v → (k, v) ∈ d.
Proof.
  induction d as [|[k' v'] d IH]; simpl; [done|].
  destruct (String.eqb_spec k' k) as [->|Hne].
  - intros [= ->]. left.
  - intros H. right. by apply IH.
Qed.
End Odict.

(** ** Which save files belong to the request file *)

Section Admission.
Context {pv_value : Type}.
Implicit Types (c : save_file pv_value).

(** The test of [get_save_files] is a disjunction: the request file
    named in the header, or the prefix of the file name. *)
Lemma belongs_to_request_spec (req_file_name : string) c :
  belongs_to_request req_file_name c = true
  ↔ md_req_file_name (sf_meta_data c) = Some req_file_name
    ∨ startswith (sf_name c) (split_head "." req_file_name +:+ "_") = true.
Proof.
  unfold belongs_to_request. rewrite orb_true_iff.
  destruct (md_req_file_name (sf_meta_data c)) as [r|].
  - destruct (String.eqb_spec r req_file_name) as [->|Hne]; naive_solver.
  - naive_solver.
Qed.

(** Without a request file in the header the prefix decides alone. *)
Lemma belongs_to_request_no_metadata (req_file_name : string) c :
  md_req_file_name (sf_meta_data c) = None →
  belongs_to_request req_file_name c
  = startswith (sf_name c) (split_head "." req_file_name +:+ "_").
Proof. unfold belongs_to_request. by intros ->. Qed.
End Admission.

(** C5: the file "test_1.snap" names the request file "other.req" in its
    header; scanned for the request file "test.req" it is kept because of
    its name, and [get_save_files] returns it as a parsed save file. *)
Theorem prefix_admits_other_request :
  md_req_file_name (sf_meta_data file_of_other_request) = Some "other.req"
  ∧ belongs_to_request "test.req" file_of_other_request = true
  ∧ od_keys (get_save_files "test.req" dir_other_request ∅).1 = ["test_1.snap"].
Proof. repeat split. Qed.

(** ** The scan of the directory *)

Section Scan.
Context {pv_value : Type}.
Implicit Types (c : save_file pv_value) (candidates : list (save_file pv_value)).
Implicit Types (current_files : gmap string (file_data pv_value)).
Implicit Types (parsed : odict (file_data pv_value)) (errs : list (string * list string)).

(** One iteration of the loop of [get_save_files]. *)
Lemma get_save_files_loop_cons req current_files c candidates parsed errs :
  get_save_files_loop req current_files (c :: candidates) parsed errs
  = if accepted req current_files c then
      let parsed' := od_set parsed (sf_name c) (parsed_entry c) in
      let errs' := match sf_err c with
                   | [] => errs
                   | _ => (errs ++ [(sf_name c, sf_err c)])%list
                   end in
      if bool_decide (10 < length parsed')%nat then (parsed', errs')
      else get_save_files_loop req current_files candidates parsed' errs'
    else get_save_files_loop req current_files candidates parsed errs.
Proof.
  unfold accepted. simpl.
  by destruct (sf_isfile c), (new_or_modified current_files c), (belongs_to_request req c).
Qed.

(** Candidates that are not accepted leave the result as it is. *)
Lemma get_save_files_loop_none req current_files candidates parsed errs :
  (∀ c, c ∈ candidates → accepted req current_files c = false) →
  get_save_files_loop req current_files candidates parsed errs = (parsed, errs).
Proof.
  induction candidates as [|c rest IH]; intros Hnone; [done|].
  rewrite get_save_files_loop_cons, (Hnone c) by left.
  apply IH. intros c' Hc'. apply Hnone. by right.
Qed.

(** The entry of a file name is not touched by candidates of other names. *)
Lemma get_save_files_loop_other req current_files candidates parsed errs k :
  k ∉ map sf_name candidates →
  od_get (get_save_files_loop req current_files candidates parsed errs).1 k = od_get parsed k.
Proof.
  revert parsed errs. induction candidates as [|c rest IH]; intros parsed errs Hk; [done|].
  simpl in Hk. apply not_elem_of_cons in Hk as [Hne Hk].
  rewrite get_save_files_loop_cons. destruct (accepted req current_files c); [|by apply IH].
  simpl. case_bool_decide; simpl.
  - by apply od_get_set_ne.
  - rewrite IH by done. by apply od_get_set_ne.
Qed.

Lemma od_length_set_le parsed k (v : file_data pv_value) :
  (length (od_set parsed k v) ≤ S (length parsed))%nat.
Proof.
  induction parsed as [|[k' v'] parsed IH]; simpl; [lia|].
  destruct (String.eqb k' k); simpl; lia.
Qed.

(** An accepted candidate that is reached before the loop breaks is in
    the returned dictionary, with the defaults in its meta data. *)
Lemma get_save_files_loop_reached req current_files pre c post parsed errs :
  NoDup (map sf_name (pre ++ c :: post)) →
  accepted req current_files c = true →
  (length parsed + length (List.filter (accepted req current_files) pre) ≤ 10)%nat →
  od_get (get_save_files_loop req current_files (pre ++ c :: post) parsed errs).1 (sf_name c)
  = Some (parsed_entry c).
Proof.
  revert parsed errs. induction pre as [|p pre IH]; intros parsed errs Hnd Hacc Hlen.
  - simpl in Hnd. apply NoDup_cons in Hnd as [Hc _].
    change ([] ++ c :: post)%list with (c :: post).
    rewrite get_save_files_loop_cons, Hacc. simpl. case_bool_decide; simpl.
    + apply od_get_set.
    + rewrite get_save_files_loop_other by done. apply od_get_set.
  - simpl in Hnd, Hlen. apply NoDup_cons in Hnd as [_ Hnd].
    change ((p :: pre) ++ c :: post)%list with (p :: (pre ++ c :: post))%list.
    rewrite get_save_files_loop_cons.
    destruct (accepted req current_files p) eqn:Hp; [|by apply IH].
    simpl in Hlen |- *.
    pose proof (od_length_set_le parsed (sf_name p) (parsed_entry p)) as Hle.
    rewrite bool_decide_eq_false_2 by lia.
    apply IH; [done | done | lia].
Qed.

(** Every reported error list is the non-empty error list the parser
    returned for an accepted candidate of that name. *)
Lemma get_save_files_loop_errors req current_files candidates parsed errs name e :
  (name, e) ∈ (get_save_files_loop req current_files candidates parsed errs).2 →
  (name, e) ∈ errs
  ∨ ∃ c, c ∈ candidates ∧ accepted req current_files c = true
         ∧ name = sf_name c ∧ e = sf_err c ∧ e ≠ [].
Proof.
  revert parsed errs. induction candidates as [|c rest IH]; intros parsed errs; [by left|].
  rewrite get_save_files_loop_cons.
  destruct (accepted req current_files c) eqn:Hacc.
  - assert (Hstep : (name, e) ∈ match sf_err c with
                                | [] => errs
                                | _ => (errs ++ [(sf_name c, sf_err c)])%list
                                end →
                    (name, e) ∈ errs
                    ∨ ∃ c', c' ∈ c :: rest ∧ accepted req current_files c' = true
                            ∧ name = sf_name c' ∧ e = sf_err c' ∧ e ≠ []).
    { destruct (sf_err c) as [|e0 es] eqn:He; [by left|].
      intros [Hin|Hin]%elem_of_app; [by left|]. right.
      apply list_elem_of_singleton in Hin. injection Hin as -> ->.
      exists c. rewrite He. repeat split; [left | done | done]. }
    simpl. case_bool_decide; simpl; [done|].
    intros [Hin | (c' & Hc' & H')]%IH; [by apply Hstep|].
    right. exists c'. split; [by right | done].
  - intros [Hin | (c' & Hc' & H')]%IH; [by left|].
    right. exists c'. split; [by right | done].
Qed.

(** When no more than ten files come back, the loop has not stopped
    early: the result lists the accepted candidates in the order of the
    glob. *)
Lemma get_save_files_loop_uncapped req current_files candidates parsed errs :
  NoDup (map sf_name candidates) →
  (∀ c, c ∈ candidates → sf_name c ∉ od_keys parsed) →
  (length (get_save_files_loop req current_files candidates parsed errs).1 ≤ 10)%nat →
  (get_save_files_loop req current_files candidates parsed errs).1
  = (parsed ++ map (λ c, (sf_name c, parsed_entry c))
                 (List.filter (accepted req current_files) candidates))%list.
Proof.
  revert parsed errs. induction candidates as [|c rest IH]; intros parsed errs Hnd Hfresh.
  - simpl. by rewrite app_nil_r.
  - simpl in Hnd. apply NoDup_cons in Hnd as [Hc Hnd].
    rewrite get_save_files_loop_cons. simpl.
    destruct (accepted req current_files c) eqn:Hacc.
    + rewrite od_set_fresh by (apply Hfresh; left).
      simpl. case_bool_decide as Hbreak; simpl.
      * intros Hlen. lia.
      * intros Hlen. rewrite IH; [by rewrite <- app_assoc | done | | done].
        intros c' Hc'. unfold od_keys. rewrite map_app. simpl.
        intros [Hin | Hin]%elem_of_app.
        -- by apply (Hfresh c'); [right|].
        -- apply list_elem_of_singleton in Hin. apply Hc. rewrite <- Hin.
           by apply list_elem_of_fmap_2.
    + intros Hlen. apply IH; [done | | done].
      intros c' Hc'. apply Hfresh. by right.
Qed.
End Scan.

(** ** Entering parsed files into the table *)

Section Update.
Context {pv_value : Type}.
Implicit Types (σ : gui_state pv_value) (files : gmap string (file_data pv_value)).
Implicit Types (data : file_data pv_value) (l : positive).

Lemma list_remove_first_Some (x : string) (ls : list string) :
  x ∈ ls →
  ∃ ls', list_remove_first x ls = Some ls' ∧ ∀ y, y ≠ x → y ∈ ls → y ∈ ls'.
Proof.
  induction ls as [|y ls IH]; intros Hx; [by apply elem_of_nil in Hx|].
  simpl. destruct (String.eqb_spec y x) as [->|Hne].
  - exists ls. split; [done|]. intros z Hz [->|Hin]%elem_of_cons; done.
  - apply elem_of_cons in Hx as [->|Hx]; [done|].
    destruct (IH Hx) as (ls' & -> & Hkeep). exists (y :: ls'). split; [done|].
    intros z Hz [->|Hin]%elem_of_cons; [left | right; by apply Hkeep].
Qed.

Lemma label_in_use_spec files (label : string) :
  label_in_use files label = true
  ↔ ∃ f data, files !! f = Some data
              ∧ label ∈ default [] (md_labels (fd_meta_data data)).
Proof.
  unfold label_in_use. rewrite existsb_exists. split.
  - intros ([f data] & Hin & Hb). exists f, data. split.
    + apply elem_of_map_to_list. by apply list_elem_of_In.
    + by apply bool_decide_eq_true in Hb.
  - intros (f & data & Hf & Hl). exists (f, data). split.
    + apply list_elem_of_In. by apply elem_of_map_to_list.
    + by apply bool_decide_eq_true.
Qed.

Lemma some_file_without_labels_false files :
  (∀ f data, files !! f = Some data → is_Some (md_labels (fd_meta_data data))) →
  some_file_without_labels files = false.
Proof.
  intros Hall. unfold some_file_without_labels.
  apply not_true_is_false. rewrite existsb_exists.
  intros ([f data] & Hin & Hb). apply bool_decide_eq_true in Hb.
  apply list_elem_of_In, elem_of_map_to_list in Hin.
  destruct (Hall f data Hin) as [x Hx]. simpl in Hb. congruence.
Qed.

Lemma elem_of_set_difference_list (a b : list string) (x : string) :
  x ∈ set_difference_list a b ↔ x ∈ a ∧ x ∉ b.
Proof.
  unfold set_difference_list.
  rewrite elem_of_elements, elem_of_difference, !elem_of_list_to_set. done.
Qed.

Lemma NoDup_set_difference_list (a b : list string) : NoDup (set_difference_list a b).
Proof. apply NoDup_elements. Qed.

(** The removal loop changes the shared list only. *)
Lemma remove_unused_frame l files (labels_to_remove : list string) σ :
  let σ' := (remove_unused l files labels_to_remove σ).2 in
  file_list σ' = file_list σ ∧ file_selector σ' = file_selector σ
  ∧ next_item σ' = next_item σ ∧ filter_input σ' = filter_input σ
  ∧ existing_labels σ' = existing_labels σ
  ∧ ∀ l', l' ≠ l → objs σ' !! l' = objs σ !! l'.
Proof.
  revert σ. induction labels_to_remove as [|label rest IH]; intros σ; simpl; [done|].
  destruct (label_in_use files label); [apply IH|].
  unfold bind, read_list. destruct (objs σ !! l) as [[cur|s]|]; simpl; try done.
  destruct (list_remove_first label cur) as [cur'|]; simpl; [|done].
  match goal with
  | |- context [remove_unused l files rest ?σ1] =>
      destruct (IH σ1) as (H1 & H2 & H3 & H4 & H5 & H6)
  end.
  simpl in *. rewrite H1, H2, H3, H4, H5. repeat split.
  intros l' Hl'. rewrite H6 by done. by apply lookup_insert_ne.
Qed.

(** With the labels to remove in the list, the removal loop does not
    raise, and a label that is in use stays in the list. *)
Lemma remove_unused_ok l files (labels_to_remove ls : list string) σ :
  objs σ !! l = Some (PyList ls) →
  NoDup labels_to_remove →
  (∀ x, x ∈ labels_to_remove → x ∈ ls) →
  ∃ ls' σ',
    remove_unused l files labels_to_remove σ = (Ok (), σ')
    ∧ objs σ' !! l = Some (PyList ls')
    ∧ ∀ x, x ∈ ls → label_in_use files x = true ∨ x ∉ labels_to_remove → x ∈ ls'.
Proof.
  revert σ ls. induction labels_to_remove as [|label rest IH]; intros σ ls Hobj Hnd Hin; simpl.
  - exists ls, σ. done.
  - apply NoDup_cons in Hnd as [Hlabel Hnd].
    destruct (label_in_use files label) eqn:Huse.
    + destruct (IH σ ls Hobj Hnd) as (ls' & σ' & Hrun & Hobj' & Hkeep).
      { intros x Hx. apply Hin. by right. }
      exists ls', σ'. repeat split; [done | done |].
      intros x Hx [Hu | Hnot]; apply Hkeep; try done; [by left|].
      right. intros Hrest. apply Hnot. by right.
    + unfold bind, read_list. rewrite Hobj. simpl.
      destruct (list_remove_first_Some label ls) as (ls1 & -> & Hkeep1); [apply Hin; left|].
      simpl.
      match goal with
      | |- context [remove_unused l files rest ?σ1] =>
          destruct (IH σ1 ls1) as (ls' & σ' & Hrun & Hobj' & Hkeep)
      end.
      { simpl. apply lookup_insert_eq. }
      { done. }
      { intros x Hx. apply Hkeep1; [by intros -> | apply Hin; by right]. }
      exists ls', σ'. repeat split; [done | done |].
      intros x Hx Hcase. assert (x ≠ label) as Hne.
      { intros ->. destruct Hcase as [Hu | Hnot]; [congruence | apply Hnot; left]. }
      apply Hkeep; [by apply Hkeep1|].
      destruct Hcase as [Hu | Hnot]; [by left | right].
      intros Hrest. apply Hnot. by right.
Qed.
End Update.

Section UpdateTable.
Context {pv_value : Type}.
Implicit Types (σ : gui_state pv_value) (files : gmap string (file_data pv_value)).
Implicit Types (data v : file_data pv_value) (l : positive) (k : string).

Lemma prune_labels_frame l (labels_to_remove : list string) σ :
  let σ' := (prune_labels l labels_to_remove σ).2 in
  file_list σ' = file_list σ ∧ file_selector σ' = file_selector σ
  ∧ next_item σ' = next_item σ ∧ filter_input σ' = filter_input σ
  ∧ existing_labels σ' = existing_labels σ
  ∧ ∀ l', l' ≠ l → objs σ' !! l' = objs σ !! l'.
Proof.
  unfold prune_labels. destruct labels_to_remove as [|x rest]; [done|].
  unfold bind, gets. destruct (some_file_without_labels (file_list σ)); [done|].
  apply remove_unused_frame.
Qed.

Lemma prune_labels_ok l (labels_to_remove ls : list string) σ :
  objs σ !! l = Some (PyList ls) →
  NoDup labels_to_remove →
  (∀ x, x ∈ labels_to_remove → x ∈ ls) →
  (∀ f data, file_list σ !! f = Some data → is_Some (md_labels (fd_meta_data data))) →
  ∃ ls' σ',
    prune_labels l labels_to_remove σ = (Ok (), σ')
    ∧ objs σ' !! l = Some (PyList ls')
    ∧ ∀ x, x ∈ ls → label_in_use (file_list σ) x = true ∨ x ∉ labels_to_remove → x ∈ ls'.
Proof.
  intros Hobj Hnd Hin Hlabels. unfold prune_labels.
  destruct labels_to_remove as [|x rest] eqn:E.
  - exists ls, σ. done.
  - rewrite <- E in *. unfold bind, gets.
    rewrite some_file_without_labels_false by done.
    by apply remove_unused_ok.
Qed.

(** The iteration for a file that is not in the table. *)
Lemma update_one_new l k v σ :
  file_list σ !! k = None →
  update_one l k v σ
  = let id := next_item σ in
    let labels := default [] (md_labels (fd_meta_data v)) in
    let item := new_tree_item id (fd_modif_time v) k
                  ("X_" +:+ default "" (md_comment (fd_meta_data v))) labels None in
    let σ1 := set_file_list (<[k := with_file_selector id v]> (file_list σ))
                (set_next_item (S id)
                   (set_file_selector (file_selector σ ++ [item])%list σ)) in
    match objs σ !! l with
    | Some (PyList cur) =>
        (Ok (with_file_selector id v),
         set_objs (<[l := PyList (cur ++ set_difference_list labels cur)%list]> (objs σ)) σ1)
    | Some (PySet _) => (Raise TypeError, σ1)
    | None => (Raise DanglingRef, σ1)
    end.
Proof.
  intros Hnew. unfold update_one, bind, gets. rewrite Hnew.
  unfold add_top_level_item, modify, read_list, write_obj, modify, ret. simpl.
  by destruct (objs σ !! l) as [[cur|s]|].
Qed.

(** The iteration for a file that is in the table. *)
Lemma update_one_modified l k v σ (ref : file_data pv_value) (old_labels cur : list string) :
  file_list σ !! k = Some ref →
  md_labels (fd_meta_data ref) = Some old_labels →
  objs σ !! l = Some (PyList cur) →
  update_one l k v σ
  = let labels := default [] (md_labels (fd_meta_data v)) in
    let σ1 := set_file_list (<[k := with_new_content v ref]> (file_list σ))
                (set_objs (<[l := PyList (cur ++ set_difference_list labels old_labels)%list]>
                             (objs σ)) σ) in
    match prune_labels l (set_difference_list old_labels labels) σ1 with
    | (Ok _, σ2) =>
        match fd_file_selector ref with
        | None => (Raise KeyError, σ2)
        | Some id =>
            (Ok v,
             set_file_selector
               (map (set_texts id (fd_modif_time v)
                       ("X_" +:+ default "" (md_comment (fd_meta_data v))) labels)
                    (file_selector σ2)) σ2)
        end
    | (Raise e, σ2) => (Raise e, σ2)
    end.
Proof.
  intros Hold Hlabels Hobj. unfold update_one, bind, gets. rewrite Hold, Hlabels.
  unfold read_list, write_obj, modify. rewrite Hobj. simpl.
  destruct (prune_labels _ _ _) as [[[]|e] σ2]; [|done].
  by destruct (fd_file_selector ref).
Qed.

(** What an iteration that does not raise has done to the table. *)
Lemma update_one_table l k v σ v' σ' :
  update_one l k v σ = (Ok v', σ') →
  existing_labels σ' = existing_labels σ
  ∧ filter_input σ' = filter_input σ
  ∧ (∀ l', l' ≠ l → objs σ' !! l' = objs σ !! l')
  ∧ (∀ k', k' ≠ k → file_list σ' !! k' = file_list σ !! k')
  ∧ (∃ data, file_list σ' !! k = Some data
             ∧ fd_meta_data data = fd_meta_data v ∧ fd_pvs_list data = fd_pvs_list v
             ∧ (file_list σ !! k = None → fd_modif_time data = fd_modif_time v))
  ∧ (file_list σ !! k = None →
     length (file_selector σ') = S (length (file_selector σ))).
Proof.
  destruct (file_list σ !! k) as [ref|] eqn:Hk.
  - destruct (md_labels (fd_meta_data ref)) as [old_labels|] eqn:Hold; cycle 1.
    { unfold update_one, bind, gets. by rewrite Hk, Hold. }
    destruct (objs σ !! l) as [[cur|s]|] eqn:Hobj; cycle 1.
    { unfold update_one, bind, gets, read_list. by rewrite Hk, Hold, Hobj. }
    { unfold update_one, bind, gets, read_list. by rewrite Hk, Hold, Hobj. }
    rewrite (update_one_modified l k v σ ref old_labels cur) by done. simpl.
    match goal with
    | |- context [prune_labels l ?r ?σ1] =>
        pose proof (prune_labels_frame l r σ1) as (H1 & H2 & H3 & H4 & H5 & H6);
        destruct (prune_labels l r σ1) as [[[]|e] σ2]; [|done]
    end.
    simpl in *. destruct (fd_file_selector ref) as [id|]; [|done].
    intros [= <- <-]. simpl. rewrite H1, H4, H5. repeat split; try done.
    + intros l' Hl'. rewrite H6 by done. by apply lookup_insert_ne.
    + intros k' Hk'. by apply lookup_insert_ne.
    + eexists. rewrite lookup_insert_eq. done.
  - rewrite update_one_new by done. simpl.
    destruct (objs σ !! l) as [[cur|s]|] eqn:Hobj; [|done|done].
    intros [= <- <-]. simpl. repeat split; try done.
    + intros l' Hl'. by apply lookup_insert_ne.
    + intros k' Hk'. by apply lookup_insert_ne.
    + eexists. rewrite lookup_insert_eq. done.
    + intros _. rewrite length_app. simpl. lia.
Qed.
End UpdateTable.

Section UpdateLoop.
Context {pv_value : Type}.
Implicit Types (σ : gui_state pv_value) (files : gmap string (file_data pv_value)).
Implicit Types (data v : file_data pv_value) (l : positive) (k : string).
Implicit Types (modif_file_list upd : odict (file_data pv_value)).

(** On a well-formed state an iteration for an entry with labels does not
    raise, and the state it reaches is well formed. *)
Lemma update_one_wf k v σ :
  table_wf σ →
  is_Some (md_labels (fd_meta_data v)) →
  ∃ v' σ', update_one (existing_labels σ) k v σ = (Ok v', σ') ∧ table_wf σ'.
Proof.
  intros (ls & Hobj & Hfiles) [labels Hlabels].
  destruct (file_list σ !! k) as [ref|] eqn:Hk.
  - destruct (Hfiles k ref Hk) as ([id Hid] & old_labels & Hold & Hsub).
    rewrite (update_one_modified _ k v σ ref old_labels ls) by done.
    rewrite Hlabels. simpl.
    match goal with
    | |- context [prune_labels ?l ?r ?σ1] =>
        destruct (prune_labels_ok l r (ls ++ set_difference_list labels old_labels)%list σ1)
          as (ls' & σ2 & Hrun & Hobj' & Hkeep);
        [ simpl; apply lookup_insert_eq
        | apply NoDup_set_difference_list
        | intros x [Hx _]%elem_of_set_difference_list; apply elem_of_app; left; by apply Hsub
        | simpl; intros f data [[<- <-]|[Hne Hf]]%lookup_insert_Some;
          [ simpl; rewrite Hlabels; eauto
          | destruct (Hfiles f data Hf) as (_ & ? & -> & _); eauto ]
        | pose proof (prune_labels_frame l r σ1) as (H1 & H2 & H3 & H4 & H5 & H6);
          rewrite Hrun in * ]
    end.
    simpl in *. rewrite Hid. eexists _, _. split; [done|].
    exists ls'. simpl. rewrite H5, H1. split; [done|].
    intros f data Hf.
    assert (∃ labels', md_labels (fd_meta_data data) = Some labels'
                       ∧ ∀ x, x ∈ labels' → x ∈ (ls ++ set_difference_list labels old_labels)%list)
      as (labels' & Hl' & Hsub').
    { apply lookup_insert_Some in Hf as [[<- <-]|[Hne Hf]].
      - exists labels. simpl. split; [done|]. intros x Hx. apply elem_of_app.
        destruct (decide (x ∈ old_labels)); [left; by apply Hsub|].
        right. by apply elem_of_set_difference_list.
      - destruct (Hfiles f data Hf) as (_ & labels' & Hl' & Hs').
        exists labels'. split; [done|]. intros x Hx. apply elem_of_app. left. by apply Hs'. }
    split.
    + apply lookup_insert_Some in Hf as [[<- <-]|[Hne Hf]]; simpl; [by rewrite Hid|].
      by destruct (Hfiles f data Hf) as (? & _).
    + exists labels'. split; [done|]. intros x Hx. apply Hkeep; [by apply Hsub'|].
      left. apply label_in_use_spec. exists f, data. split; [done|]. by rewrite Hl'.
  - rewrite update_one_new by done. rewrite Hobj, Hlabels. simpl.
    eexists _, _. split; [done|].
    exists (ls ++ set_difference_list labels ls)%list. simpl.
    split; [apply lookup_insert_eq|].
    intros f data [[<- <-]|[Hne Hf]]%lookup_insert_Some; simpl.
    + split; [eauto|]. exists labels. split; [done|]. intros x Hx. apply elem_of_app.
      destruct (decide (x ∈ ls)); [by left|]. right. by apply elem_of_set_difference_list.
    + destruct (Hfiles f data Hf) as (Hsel & labels' & Hl' & Hs'). split; [done|].
      exists labels'. split; [done|]. intros x Hx. apply elem_of_app. left. by apply Hs'.
Qed.

Lemma update_loop_cons l k v modif_file_list σ :
  update_loop l ((k, v) :: modif_file_list) σ
  = match update_one l k v σ with
    | (Ok v', σ1) =>
        match update_loop l modif_file_list σ1 with
        | (Ok rest', σ') => (Ok ((k, v') :: rest'), σ')
        | (Raise e, σ') => (Raise e, σ')
        end
    | (Raise e, σ1) => (Raise e, σ1)
    end.
Proof.
  simpl. unfold bind. destruct (update_one l k v σ) as [[v'|e] σ1]; [|done].
  by destruct (update_loop l modif_file_list σ1) as [[rest'|e] σ'].
Qed.

(** What a pass that does not raise has done to the table. *)
Lemma update_loop_table l modif_file_list σ upd σ' :
  update_loop l modif_file_list σ = (Ok upd, σ') →
  NoDup (od_keys modif_file_list) →
  od_keys upd = od_keys modif_file_list
  ∧ existing_labels σ' = existing_labels σ
  ∧ filter_input σ' = filter_input σ
  ∧ (∀ l', l' ≠ l → objs σ' !! l' = objs σ !! l')
  ∧ (∀ k, k ∉ od_keys modif_file_list → file_list σ' !! k = file_list σ !! k)
  ∧ (∀ k v, (k, v) ∈ modif_file_list →
       ∃ data, file_list σ' !! k = Some data
               ∧ fd_meta_data data = fd_meta_data v ∧ fd_pvs_list data = fd_pvs_list v
               ∧ (file_list σ !! k = None → fd_modif_time data = fd_modif_time v))
  ∧ ((∀ k, k ∈ od_keys modif_file_list → file_list σ !! k = None) →
     length (file_selector σ') = (length (file_selector σ) + length modif_file_list)%nat).
Proof.
  revert σ upd σ'. induction modif_file_list as [|[k v] rest IH]; intros σ upd σ'.
  - simpl. intros [= <- <-] _. repeat split; try done.
    intros k v Hin. by apply elem_of_nil in Hin.
  - rewrite update_loop_cons.
    destruct (update_one l k v σ) as [[v'|e] σ1] eqn:Hone; [|done].
    destruct (update_loop l rest σ1) as [[rest'|e] σ2] eqn:Hrest; [|done].
    intros [= <- <-] Hnd. simpl in Hnd. apply NoDup_cons in Hnd as [Hk Hnd].
    apply update_one_table in Hone as (He1 & Hf1 & Ho1 & Hother1 & (data & Hd & Hmeta & Hpvs & Htime) & Hlen1).
    destruct (IH _ _ _ Hrest Hnd) as (Hkeys & He & Hf & Ho & Hother & Hin & Hlen).
    repeat split.
    + simpl. by rewrite Hkeys.
    + congruence.
    + congruence.
    + intros l' Hl'. rewrite Ho, Ho1; done.
    + intros k' Hk'. simpl in Hk'. apply not_elem_of_cons in Hk' as [Hne Hk'].
      rewrite Hother, Hother1; done.
    + intros k' v0 [[= -> ->]|Hin']%elem_of_cons.
      * exists data. rewrite Hother by done. done.
      * destruct (Hin k' v0 Hin') as (data' & Hd' & Hm' & Hp' & Ht').
        exists data'. repeat split; try done. intros Hnone. apply Ht'.
        rewrite Hother1; [done|]. intros ->. apply Hk.
        unfold od_keys. by apply (list_elem_of_fmap_2 fst) in Hin'.
    + intros Hnew. simpl. rewrite Hlen, Hlen1; [lia | apply Hnew; left |].
      intros k' Hk'. rewrite Hother1; [apply Hnew; by right|].
      intros ->. done.
Qed.

(** On a well-formed state the pass does not raise. *)
Lemma update_loop_wf modif_file_list σ :
  table_wf σ →
  (∀ k v, (k, v) ∈ modif_file_list → is_Some (md_labels (fd_meta_data v))) →
  ∃ upd σ', update_loop (existing_labels σ) modif_file_list σ = (Ok upd, σ') ∧ table_wf σ'.
Proof.
  revert σ. induction modif_file_list as [|[k v] rest IH]; intros σ Hwf Hlabels.
  - exists [], σ. done.
  - rewrite update_loop_cons.
    destruct (update_one_wf k v σ Hwf) as (v' & σ1 & Hone & Hwf1); [apply (Hlabels k); left|].
    rewrite Hone.
    pose proof (update_one_table _ _ _ _ _ _ Hone) as (He1 & _).
    destruct (IH σ1 Hwf1) as (upd & σ' & Hrest & Hwf').
    { intros k' v0 Hin. apply (Hlabels k'). by right. }
    rewrite He1 in Hrest. rewrite Hrest. eauto.
Qed.
End UpdateLoop.

(** ** Defaults for a missing comment and missing labels *)

Section Defaults.
Context {pv_value : Type}.
Implicit Types (σ : gui_state pv_value) (c : save_file pv_value) (d : save_dir pv_value).
Implicit Types (parsed : odict (file_data pv_value)).

Lemma od_set_elem parsed k (v : file_data pv_value) k' v' :
  (k', v') ∈ od_set parsed k v → (k', v') ∈ parsed ∨ (k', v') = (k, v).
Proof.
  induction parsed as [|[k0 v0] parsed IH]; simpl.
  - intros ->%list_elem_of_singleton. by right.
  - destruct (String.eqb_spec k0 k) as [->|Hne].
    + intros [->|Hin]%elem_of_cons; [by right | left; by right].
    + intros [->|Hin]%elem_of_cons; [left; left|].
      destruct (IH Hin) as [?|?]; [left; by right | by right].
Qed.

Lemma od_set_keys_NoDup parsed k (v : file_data pv_value) :
  NoDup (od_keys parsed) → NoDup (od_keys (od_set parsed k v)).
Proof.
  induction parsed as [|[k0 v0] parsed IH]; simpl.
  - intros _. apply NoDup_singleton.
  - intros [Hk0 Hnd]%NoDup_cons. destruct (String.eqb_spec k0 k) as [->|Hne]; simpl.
    + by apply NoDup_cons.
    + apply NoDup_cons. split; [|by apply IH].
      intros Hin. apply list_elem_of_fmap in Hin as ([k1 v1] & -> & Hin). simpl in *.
      apply od_set_elem in Hin as [Hin | [= -> ->]]; [|done].
      apply Hk0. by apply (list_elem_of_fmap_2 fst) in Hin.
Qed.

(** The keys of the returned dictionary are distinct and its entries are
    the parsed entries of candidates. *)
Lemma get_save_files_loop_entries req current_files (candidates : list (save_file pv_value))
    parsed errs :
  NoDup (od_keys parsed) →
  let result := (get_save_files_loop req current_files candidates parsed errs).1 in
  NoDup (od_keys result)
  ∧ ∀ k v, (k, v) ∈ result →
      (k, v) ∈ parsed ∨ ∃ c, c ∈ candidates ∧ k = sf_name c ∧ v = parsed_entry c.
Proof.
  revert parsed errs. induction candidates as [|c rest IH]; intros parsed errs Hnd.
  - simpl. split; [done | by left].
  - rewrite get_save_files_loop_cons.
    destruct (accepted req current_files c).
    + simpl. pose proof (od_set_keys_NoDup parsed (sf_name c) (parsed_entry c) Hnd) as Hnd'.
      assert (∀ k v, (k, v) ∈ od_set parsed (sf_name c) (parsed_entry c) →
                (k, v) ∈ parsed ∨ ∃ c', c' ∈ c :: rest ∧ k = sf_name c' ∧ v = parsed_entry c')
        as Hstep.
      { intros k v [Hin | [= -> ->]]%od_set_elem; [by left | right].
        exists c. split; [left | done]. }
      case_bool_decide; simpl; [done|].
      match goal with
      | |- context [get_save_files_loop req current_files rest ?p ?e] =>
          destruct (IH p e Hnd') as [Hnd'' Hent]
      end.
      split; [done|]. intros k v [Hin | (c' & Hc' & H')]%Hent; [by apply Hstep|].
      right. exists c'. split; [by right | done].
    + destruct (IH parsed errs Hnd) as [Hnd'' Hent]. split; [done|].
      intros k v [Hin | (c' & Hc' & H')]%Hent; [by left|].
      right. exists c'. split; [by right | done].
Qed.

(** The state the widget starts from is well formed. *)
Lemma table_wf_empty σ (ls : list string) :
  file_list σ = ∅ → objs σ !! existing_labels σ = Some (PyList ls) → table_wf σ.
Proof.
  intros Hfiles Hobj. exists ls. split; [done|].
  intros f data. by rewrite Hfiles, lookup_empty.
Qed.

(** C8: an accepted candidate that the scan reaches before it stops (at
    most ten accepted candidates come before it) is in the returned
    dictionary with its parsed values and modification time; a comment
    that is missing from its header is the empty string and missing
    labels are the empty list; an error list reported under its name is
    the non-empty list the parser returned, so a missing field by itself
    is not reported; and on a well-formed state the table update does not
    raise and leaves the file in the table with these meta data. *)
Theorem missing_comment_and_labels_default (req : string) d σ
    (pre post : list (save_file pv_value)) c
    (Hglob : glob_req d = (pre ++ c :: post)%list)
    (Hnames : NoDup (map sf_name (glob_req d)))
    (Haccepted : accepted req (file_list σ) c = true)
    (Hreached : (length (List.filter (accepted req (file_list σ)) pre) ≤ 10)%nat)
    (Hwf : table_wf σ) :
  let parsed := (get_save_files req d (file_list σ)).1 in
  let errs := (get_save_files req d (file_list σ)).2 in
  od_get parsed (sf_name c) = Some (parsed_entry c)
  ∧ md_comment (fd_meta_data (parsed_entry c)) = Some (default "" (md_comment (sf_meta_data c)))
  ∧ md_labels (fd_meta_data (parsed_entry c)) = Some (default [] (md_labels (sf_meta_data c)))
  ∧ (∀ e, (sf_name c, e) ∈ errs → e = sf_err c ∧ e ≠ [])
  ∧ ∃ upd σ',
      update_file_list_selector parsed σ = (Ok upd, σ')
      ∧ ∃ data, file_list σ' !! sf_name c = Some data
                ∧ fd_meta_data data = with_defaults (sf_meta_data c)
                ∧ fd_pvs_list data = sf_pvs_list c.
Proof.
  intros parsed errs. subst parsed errs. unfold get_save_files. rewrite Hglob.
  assert (Hget : od_get (get_save_files_loop req (file_list σ) (pre ++ c :: post) [] []).1
                   (sf_name c) = Some (parsed_entry c)).
  { apply get_save_files_loop_reached; [by rewrite <- Hglob | done | simpl; lia]. }
  split; [done|]. split; [done|]. split; [done|]. split.
  - intros e [Hin | (c' & Hc' & _ & Hname & -> & Hne)]%get_save_files_loop_errors.
    + by apply elem_of_nil in Hin.
    + assert (c' = c) as ->; [|done].
      rewrite Hglob in Hnames.
      assert (c ∈ (pre ++ c :: post)%list) as Hc by (apply elem_of_app; right; left).
      apply list_elem_of_lookup in Hc as [i Hi], Hc' as [j Hj].
      assert (i = j) as ->; [|congruence].
      apply (NoDup_lookup _ i j (sf_name c) Hnames).
      * by rewrite list_lookup_fmap, Hi.
      * by rewrite list_lookup_fmap, Hj, Hname.
  - destruct (get_save_files_loop_entries req (file_list σ) (pre ++ c :: post) [] [])
      as [Hnd Hent]; [apply NoDup_nil_2|]. simpl in Hnd, Hent.
    unfold update_file_list_selector, bind, gets.
    destruct (update_loop_wf (get_save_files_loop req (file_list σ) (pre ++ c :: post) [] []).1
                σ Hwf) as (upd & σ' & Hrun & _).
    { intros k v [Hin | (c' & _ & _ & ->)]%Hent; [by apply elem_of_nil in Hin|]. simpl. eauto. }
    exists upd, σ'. split; [done|].
    apply update_loop_table in Hrun as (_ & _ & _ & _ & _ & Hin & _); [|done].
    destruct (Hin _ _ (od_get_Some_elem _ _ _ Hget)) as (data & Hd & Hm & Hp & _).
    exists data. done.
Qed.
End Defaults.

Lemma missing_comment_and_labels_default_witness :
  od_get (get_save_files "test.req" dir_bare (file_list initial_state)).1 "test_bare.snap"
  = Some (parsed_entry file_bare)
  ∧ md_comment (fd_meta_data (parsed_entry file_bare)) = Some ""
  ∧ md_labels (fd_meta_data (parsed_entry file_bare)) = Some [].
Proof.
  destruct (missing_comment_and_labels_default "test.req" dir_bare initial_state
              [] [] file_bare) as (Hget & Hcomment & Hlabels & _).
  - reflexivity.
  - apply NoDup_singleton.
  - reflexivity.
  - simpl. lia.
  - apply (table_wf_empty initial_state []); reflexivity.
  - repeat split; assumption.
Defined.

(** ** Labels of deleted files *)

Lemma label_used_in_use {pv_value : Type} (σ : gui_state pv_value) (label : string) :
  label_used σ label ↔ label_in_use (file_list σ) label = true.
Proof.
  rewrite label_in_use_spec. unfold label_used. split.
  - intros (f & data & labels & Hf & Hl & Hin). exists f, data. by rewrite Hl.
  - intros (f & data & Hf & Hin).
    destruct (md_labels (fd_meta_data data)) as [labels|] eqn:Hl; simpl in Hin.
    + by exists f, data, labels.
    + by apply elem_of_nil in Hin.
Qed.

(** C3: after the two files of the example were entered into the table
    (which lists shift1 and shift2 as existing labels), deleting
    "test_b.snap" through [evt_delete_files] takes the file out of the
    table and leaves the list of existing labels as it was: shift2 is
    still suggested although no file of the table carries it. A file
    that disappears from the directory is not noticed by the scan at all:
    [get_save_files] returns nothing for it and it stays in the table. *)
Theorem delete_leaves_label_behind :
  is_ok (update_file_list_selector
           (get_save_files "test.req" dir_ab (file_list initial_state)).1 initial_state).1 = true
  ∧ suggested_labels state_ab = ["shift1"; "shift2"]
  ∧ (evt_delete_files ["test_b.snap"] true (λ _, true) state_ab).1 = Ok ()
  ∧ file_list state_b_deleted !! "test_b.snap" = None
  ∧ suggested_labels state_b_deleted = ["shift1"; "shift2"]
  ∧ ¬ label_used state_b_deleted "shift2"
  ∧ ¬ labels_consistent state_b_deleted
  ∧ get_save_files "test.req" dir_a (file_list state_ab) = ([], [])
  ∧ is_Some (file_list state_ab !! "test_b.snap").
Proof.
  assert (Hunused : ¬ label_used state_b_deleted "shift2").
  { rewrite label_used_in_use. vm_compute. discriminate. }
  assert (Hsuggested : suggested_labels state_b_deleted = ["shift1"; "shift2"]).
  { vm_compute. reflexivity. }
  split; [vm_compute; reflexivity|].
  split; [vm_compute; reflexivity|].
  split; [vm_compute; reflexivity|].
  split; [vm_compute; reflexivity|].
  split; [exact Hsuggested|].
  split; [exact Hunused|].
  split.
  - intros Hcons. apply Hunused, Hcons. rewrite Hsuggested. right. left.
  - split; [vm_compute; reflexivity|]. vm_compute. eauto.
Qed.

(** ** Reconciliation twice *)

Section Twice.
Context {pv_value : Type}.
Variable json_load : string → result (list (string * meta_data)).
Implicit Types (σ : gui_state pv_value) (d : save_dir pv_value) (c : save_file pv_value).
Implicit Types (items : list tree_item).

Lemma NoDup_fmap_eq {A B : Type} (f : A → B) (l : list A) (x y : A) :
  NoDup (map f l) → x ∈ l → y ∈ l → f x = f y → x = y.
Proof.
  intros Hnd [i Hi]%list_elem_of_lookup [j Hj]%list_elem_of_lookup Hf.
  assert (i = j) as ->; [|congruence].
  apply (NoDup_lookup _ i j (f x) Hnd).
  - by rewrite list_lookup_fmap, Hi.
  - by rewrite list_lookup_fmap, Hj, Hf.
Qed.

(** The filter changes nothing but the hidden flags. *)
Lemma filter_items_rows (ff : file_filter) items :
  same_rows (filter_items ff items).2 items.
Proof.
  unfold same_rows. induction items as [|item rest IH]; simpl; [done|].
  destruct (row_hidden ff item) as [h|e]; simpl; [|done].
  destruct (filter_items ff rest) as [r rest']. simpl in *. by rewrite IH.
Qed.

Lemma same_rows_files items items' :
  same_rows items items' → map ti_file items = map ti_file items'.
Proof.
  unfold same_rows. intros H.
  assert (G : ∀ l, map ti_file l = map ti_file (map (set_hidden false) l)).
  { intros l. rewrite map_map. by apply map_ext. }
  by rewrite (G items), (G items'), H.
Qed.

Lemma same_rows_length items items' : same_rows items items' → length items = length items'.
Proof.
  unfold same_rows. intros H.
  by rewrite <- (length_map (set_hidden false) items), H, length_map.
Qed.

(** With nothing asked for, the filter shows every row. *)
Lemma filter_items_clear items :
  (filter_items clear_filter items).1 = Ok ().
Proof.
  induction items as [|item rest IH]; simpl; [done|].
  unfold row_hidden, name_test, comment_test, labels_test. simpl.
  by destruct (filter_items clear_filter rest).
Qed.

(** When every file of the index is already listed, the loop over the
    index does nothing. *)
Lemma index_loop_all_found d (labels_ref : positive) (fnSet : gset string)
    (idx_data : list (string * meta_data)) (n : nat) σ :
  (∀ fn meta, (fn, meta) ∈ idx_data → fn ∈ fnSet) →
  index_loop d labels_ref fnSet idx_data n σ = (Ok (), σ).
Proof.
  induction idx_data as [|[fn meta] rest IH]; intros Hall; simpl; [done|].
  rewrite bool_decide_eq_true_2 by (apply (Hall fn meta); left).
  apply IH. intros fn' meta' Hin. apply (Hall fn' meta'). by right.
Qed.

(** A loop over the index that returns with fewer than eleven new rows
    has gone through the whole index: every file of the index was listed
    before or is listed now, and the old rows are still there. *)
Lemma index_loop_complete d (labels_ref : positive) (fnSet : gset string)
    (idx_data : list (string * meta_data)) (n : nat) σ σ' :
  index_loop d labels_ref fnSet idx_data n σ = (Ok (), σ') →
  (length (file_selector σ') + n ≤ length (file_selector σ) + 10)%nat →
  (∃ new, file_selector σ' = (file_selector σ ++ new)%list)
  ∧ ∀ fn meta, (fn, meta) ∈ idx_data →
      fn ∈ fnSet ∨ fn ∈ map ti_file (file_selector σ').
Proof.
  revert n σ. induction idx_data as [|[fn meta] rest IH]; intros n σ; simpl.
  - intros [= <-] _. split; [exists []; by rewrite app_nil_r|].
    intros fn meta Hin. by apply elem_of_nil in Hin.
  - case_bool_decide as Hfn.
    + intros Hrun Hlen. destruct (IH n σ Hrun Hlen) as [Hnew Hall]. split; [done|].
      intros fn' meta' [[= -> ->]|Hin]%elem_of_cons; [by left | by apply (Hall fn' meta')].
    + unfold bind, lift. destruct (getmtime d fn) as [modTime|e]; [|done].
      unfold add_top_level_item, set_update. simpl.
      destruct (objs σ !! labels_ref) as [[x|s]|] eqn:Hobj; [done| |done].
      simpl. case_bool_decide as Hn; simpl.
      * intros [= <-]. simpl. rewrite length_app. simpl. lia.
      * intros Hrun Hlen.
        apply IH in Hrun as [[new Hnew] Hall]; simpl in *.
        2:{ rewrite length_app. simpl. lia. }
        split; [eexists; rewrite Hnew, <- app_assoc; done|].
        intros fn' meta' [[= -> ->]|Hin]%elem_of_cons; [|by apply (Hall fn' meta')].
        right. rewrite Hnew, !map_app. simpl.
        apply elem_of_app. left. apply elem_of_app. right. left.
Qed.

(** The three stages of a reconciliation that returns. *)
Lemma start_file_list_update_Ok req d σ u σ1 :
  start_file_list_update json_load req d σ = (Ok u, σ1) →
  ∃ σa items,
    update_loop (existing_labels σ) (get_save_files req d (file_list σ)).1 σ = (Ok u, σa)
    ∧ filter_items (filter_input σa) (file_selector σa) = (Ok (), items)
    ∧ start_file_list_update_new json_load d (set_file_selector items σa) = (Ok (), σ1).
Proof.
  unfold start_file_list_update, bind, gets.
  destruct (get_save_files req d (file_list σ)) as [save_files errs]. simpl.
  unfold update_file_list_selector, bind, gets.
  destruct (update_loop (existing_labels σ) save_files σ) as [[upd|e] σa]; [|done].
  unfold filter_file_list_selector.
  destruct (filter_items (filter_input σa) (file_selector σa)) as [[[]|e] items] eqn:Hfil;
    [|done].
  destruct (start_file_list_update_new json_load d (set_file_selector items σa))
    as [[[]|e] σ1'] eqn:Hnew; [|done].
  unfold ret. intros Heq. injection Heq as -> ->. by exists σa, items.
Qed.

(** The steps of an index pass that returns. *)
Lemma start_file_list_update_new_Ok d σ σ1 :
  start_file_list_update_new json_load d σ = (Ok (), σ1) →
  ∃ o text idx_data σ',
    objs σ !! existing_labels σ = Some o
    ∧ gen_index_file d = Ok text
    ∧ json_load text = Ok idx_data
    ∧ file_selector σ' = file_selector σ
    ∧ index_loop d (fresh (dom (objs σ))) (list_to_set (map ti_file (file_selector σ)))
        idx_data 0 σ' = (Ok (), σ1).
Proof.
  unfold start_file_list_update_new, bind, gets, new_set_of, lift. simpl.
  destruct (objs σ !! existing_labels σ) as [o|] eqn:Hobj; [|done]. simpl.
  destruct (gen_index_file d) as [text|e] eqn:Htext; [|done].
  destruct (json_load text) as [idx_data|e] eqn:Hjson; [|done]. simpl.
  intros Hloop. eexists o, text, idx_data, _.
  split; [done|]. split; [done|]. split; [done|]. split; [|exact Hloop]. done.
Qed.

(** An index pass over an index whose files are all listed returns
    without touching the tree, the table or the shared list. *)
Lemma start_file_list_update_new_listed d σ (o : pyobj) (text : string)
    (idx_data : list (string * meta_data)) :
  objs σ !! existing_labels σ = Some o →
  gen_index_file d = Ok text →
  json_load text = Ok idx_data →
  (∀ fn meta, (fn, meta) ∈ idx_data → fn ∈ map ti_file (file_selector σ)) →
  ∃ σ', start_file_list_update_new json_load d σ = (Ok (), σ')
        ∧ file_list σ' = file_list σ
        ∧ file_selector σ' = file_selector σ
        ∧ existing_labels σ' = existing_labels σ
        ∧ objs σ' !! existing_labels σ = Some o.
Proof.
  intros Hobj Htext Hidx Hlisted.
  unfold start_file_list_update_new, bind, gets, new_set_of, lift. simpl.
  rewrite Hobj, Htext. simpl. rewrite Hidx. simpl.
  rewrite index_loop_all_found.
  - eexists. split; [done|]. simpl. repeat split.
    rewrite lookup_insert_ne; [done|]. intros Heq.
    apply (is_fresh (dom (objs σ))). rewrite Heq. apply elem_of_dom. eauto.
  - intros fn meta Hin. apply elem_of_list_to_set. by apply (Hlisted fn meta).
Qed.

(** C2 (as amended): take a reconciliation that returns a changed-set of
    at most ten files, all of them new to the table, and whose index pass
    has added at most ten rows to the tree beyond those of the changed
    files. Run again on the unchanged directory, with a filter that
    applies to the rows without an error, the reconciliation returns an
    empty changed-set and leaves the table, the rows (up to their hidden
    flags) and the suggested labels as they were. *)
Theorem reconcile_twice (req : string) d σ (u1 : odict (file_data pv_value)) σ1
    (Hnames : NoDup (map sf_name (glob_req d)))
    (Hrun : start_file_list_update json_load req d σ = (Ok u1, σ1))
    (Hfew : (length u1 ≤ 10)%nat)
    (Hnew : ∀ k, k ∈ od_keys u1 → file_list σ !! k = None)
    (Hrows : (length (file_selector σ1) ≤ length (file_selector σ) + length u1 + 10)%nat)
    (Hfilter : (filter_items (filter_input σ1) (file_selector σ1)).1 = Ok ()) :
  ∃ σ2,
    start_file_list_update json_load req d σ1 = (Ok [], σ2)
    ∧ file_list σ2 = file_list σ1
    ∧ same_rows (file_selector σ2) (file_selector σ1)
    ∧ suggested_labels σ2 = suggested_labels σ1.
Proof.
  apply start_file_list_update_Ok in Hrun as (σa & items & Hupd & Hfil & Hidx).
  set (save_files := (get_save_files req d (file_list σ)).1) in *.
  (* the first scan *)
  destruct (get_save_files_loop_entries req (file_list σ) (glob_req d) [] [])
    as [Hnd _]; [apply NoDup_nil_2|]. fold (get_save_files req d (file_list σ)) in Hnd.
  fold save_files in Hnd. simpl in Hnd.
  apply update_loop_table in Hupd as (Hkeys & He & Hff & Ho & Hother & Hin & Hlen); [|done].
  assert (length save_files = length u1) as Hsame.
  { pose proof Hkeys as Hk. unfold od_keys in Hk.
    by rewrite <- (length_map fst save_files), <- Hk, length_map. }
  assert (save_files = map (λ c, (sf_name c, parsed_entry c))
                         (List.filter (accepted req (file_list σ)) (glob_req d))) as Hsf.
  { unfold save_files, get_save_files.
    apply (get_save_files_loop_uncapped req (file_list σ) (glob_req d) [] []); [done | |].
    - intros c _. apply not_elem_of_nil.
    - fold (get_save_files req d (file_list σ)). fold save_files. lia. }
  rewrite Hkeys in Hnew.
  (* the first index pass *)
  pose proof (start_file_list_update_new_frame json_load d (set_file_selector items σa))
    as (He1 & Ho1 & Hf1 & Hff1).
  rewrite Hidx in He1, Ho1, Hf1, Hff1. simpl in He1, Ho1, Hf1, Hff1.
  apply start_file_list_update_new_Ok in Hidx
    as (o & text & idx_data & σ' & Hobj & Htext & Hjson & Hrows' & Hloop).
  simpl in Hobj, Hrows'.
  pose proof (filter_items_rows (filter_input σa) (file_selector σa)) as Hsame_rows.
  rewrite Hfil in Hsame_rows. simpl in Hsame_rows.
  apply index_loop_complete in Hloop as [[new Hnewrows] Hlisted].
  2:{ rewrite Hrows'. rewrite (same_rows_length _ _ Hsame_rows), (Hlen Hnew). lia. }
  rewrite Hrows' in Hnewrows. simpl in Hlisted.
  (* the second scan finds nothing to do *)
  assert (get_save_files req d (file_list σ1) = ([], [])) as Hscan2.
  { apply get_save_files_loop_none. intros c Hc.
    destruct (accepted req (file_list σ1) c) eqn:Hacc2; [exfalso|done].
    unfold accepted in Hacc2.
    apply andb_true_iff in Hacc2 as [[Hfile Hstale2]%andb_true_iff Hbelongs].
    rewrite Hf1 in Hstale2. unfold new_or_modified in Hstale2.
    destruct (accepted req (file_list σ) c) eqn:Hacc1.
    - assert ((sf_name c, parsed_entry c) ∈ save_files) as Hentry.
      { rewrite Hsf. apply (list_elem_of_fmap_2 (λ c, (sf_name c, parsed_entry c))).
        apply list_elem_of_In, filter_In. split; [by apply list_elem_of_In | done]. }
      destruct (Hin _ _ Hentry) as (data & Hdata & _ & _ & Htime).
      rewrite Hdata in Hstale2. apply bool_decide_eq_true in Hstale2.
      apply Hstale2. rewrite Htime; [done|]. apply Hnew.
      by apply (list_elem_of_fmap_2 fst) in Hentry.
    - rewrite Hother in Hstale2.
      + unfold accepted in Hacc1. rewrite Hfile, Hbelongs, andb_true_r in Hacc1.
        simpl in Hacc1. unfold new_or_modified in Hacc1. congruence.
      + rewrite Hsf. unfold od_keys. rewrite map_map. simpl.
        intros (c' & Hname & Hc')%list_elem_of_fmap.
        apply list_elem_of_In, filter_In in Hc' as [Hc' Hacc'].
        apply list_elem_of_In in Hc'.
        assert (c = c') as <- by (by apply (NoDup_fmap_eq sf_name (glob_req d))).
        congruence. }
  (* the second run *)
  destruct (filter_items (filter_input σ1) (file_selector σ1)) as [r items2] eqn:Hfil2.
  simpl in Hfilter. subst r.
  pose proof (filter_items_rows (filter_input σ1) (file_selector σ1)) as Hsame_rows2.
  rewrite Hfil2 in Hsame_rows2. simpl in Hsame_rows2.
  destruct (start_file_list_update_new_listed d (set_file_selector items2 σ1) o text idx_data)
    as (σ2 & Hrun2 & Hf2 & Hr2 & He2 & Ho2); [| done | done | |].
  { simpl. rewrite He1. rewrite Ho1; [done | by rewrite Hobj]. }
  { simpl. intros fn meta Hfn. rewrite (same_rows_files _ _ Hsame_rows2).
    destruct (Hlisted fn meta Hfn) as [Hset | Hrow]; [|done].
    apply elem_of_list_to_set in Hset. rewrite Hnewrows, map_app. apply elem_of_app. by left. }
  exists σ2. split; [|split; [done | split]].
  - unfold start_file_list_update, bind, gets. rewrite Hscan2. simpl.
    unfold update_file_list_selector, bind, gets. simpl.
    unfold filter_file_list_selector. rewrite Hfil2. by rewrite Hrun2.
  - by rewrite Hr2.
  - unfold suggested_labels. simpl in He2, Ho2. rewrite He2, Ho2.
    rewrite He1. rewrite Ho1 by (by rewrite Hobj). by rewrite Hobj.
Qed.
End Twice.

(** The index text of the sample directory with one file: the last comma
    is overwritten by the closing bracket. *)
Example gen_index_file_sample :
  gen_index_file dir_bare
  = Ok ("[" +:+ nl +:+ "[" +:+ dquote +:+ "test_bare.snap" +:+ dquote +:+ ",{}]" +:+ nl
        +:+ "]" +:+ nl).
Proof. vm_compute. reflexivity. Qed.

Lemma reconcile_twice_witness :
  ∃ σ2,
    start_file_list_update (sample_json_load dir_ab) "test.req" dir_ab (first_run dir_ab).2
    = (Ok [], σ2)
    ∧ file_list σ2 = file_list (first_run dir_ab).2
    ∧ same_rows (file_selector σ2) (file_selector (first_run dir_ab).2)
    ∧ suggested_labels σ2 = suggested_labels (first_run dir_ab).2.
Proof.
  apply (reconcile_twice (sample_json_load dir_ab) "test.req" dir_ab initial_state
           (changed_of (first_run dir_ab).1) (first_run dir_ab).2).
  - apply (bool_decide_unpack _). vm_compute. exact I.
  - vm_compute. reflexivity.
  - vm_compute. lia.
  - intros k _. apply lookup_empty.
  - vm_compute. lia.
  - vm_compute. reflexivity.
Defined.

(** C2, as stated, fails on a directory of twelve save files: the first
    reconciliation from the initial state stops after eleven files, and
    the second one, with nothing changed on disk, parses and returns the
    twelfth. *)
Lemma reconcile_twice_counterexample :
  (first_run dir12).1 = Ok (changed_of (first_run dir12).1)
  ∧ od_keys (changed_of
               (start_file_list_update (sample_json_load dir12) "test.req" dir12
                  (first_run dir12).2).1) = ["test_12.snap"]
  ∧ ¬ reconcile_idempotent (sample_json_load dir12) "test.req" dir12 initial_state.
Proof.
  split; [vm_compute; reflexivity|]. split; [vm_compute; reflexivity|].
  intros Hidem.
  destruct (Hidem (changed_of (first_run dir12).1) (first_run dir12).2) as (σ2 & Hrun2 & _).
  - vm_compute. reflexivity.
  - apply (f_equal fst) in Hrun2. vm_compute in Hrun2. discriminate.
Qed.

(** ** Well-formed states are kept *)

Section Invariant.
Context {pv_value : Type}.
Variable json_load : string → result (list (string * meta_data)).
Implicit Types (σ : gui_state pv_value) (d : save_dir pv_value).

Lemma table_wf_same_table σ σ' :
  existing_labels σ' = existing_labels σ →
  objs σ' !! existing_labels σ = objs σ !! existing_labels σ →
  file_list σ' ⊆ file_list σ →
  table_wf σ → table_wf σ'.
Proof.
  intros He Ho Hf (ls & Hobj & Hfiles). exists ls. rewrite He, Ho. split; [done|].
  intros f data Hdata. apply (Hfiles f data). by apply (lookup_weaken _ _ _ _ Hdata).
Qed.

Lemma delete_loop_frame (os_remove : string → bool) (selected_files : list string) σ :
  let σ' := (delete_loop os_remove selected_files σ).2 in
  existing_labels σ' = existing_labels σ ∧ objs σ' = objs σ
  ∧ filter_input σ' = filter_input σ ∧ file_list σ' ⊆ file_list σ.
Proof.
  revert σ. induction selected_files as [|f rest IH]; intros σ; simpl; [done|].
  destruct (os_remove f); [|apply IH].
  unfold bind, gets. simpl. destruct (file_list σ !! f) as [data|]; [|done].
  unfold modify. simpl. destruct (take_item f (file_selector σ)) as [items'|]; simpl.
  - match goal with
    | |- context [delete_loop os_remove rest ?σ1] =>
        destruct (IH σ1) as (He & Ho & Hff & Hf)
    end.
    simpl in *. rewrite He, Ho, Hff. repeat split.
    etrans; [exact Hf | apply delete_subseteq].
  - repeat split. apply delete_subseteq.
Qed.

(** Deleting files keeps the state well formed, however it ends. *)
Lemma evt_delete_files_wf (selected_files : list string) (reply_yes : bool)
    (os_remove : string → bool) σ :
  table_wf σ → table_wf (evt_delete_files selected_files reply_yes os_remove σ).2.
Proof.
  intros Hwf. unfold evt_delete_files.
  destruct selected_files as [|f rest]; [done|]. destruct reply_yes; [|done].
  destruct (delete_loop_frame os_remove (f :: rest) σ) as (He & Ho & _ & Hf).
  apply (table_wf_same_table σ); [done | by rewrite Ho | done | done].
Qed.

(** On a well-formed state the table update of a reconciliation does not
    raise, and however the reconciliation ends the state is well formed. *)
Lemma start_file_list_update_wf (req : string) d σ :
  table_wf σ →
  is_ok (update_file_list_selector (get_save_files req d (file_list σ)).1 σ).1 = true
  ∧ table_wf (start_file_list_update json_load req d σ).2.
Proof.
  intros Hwf.
  destruct (get_save_files_loop_entries req (file_list σ) (glob_req d) [] [])
    as [_ Hent]; [apply NoDup_nil_2|]. simpl in Hent.
  destruct (update_loop_wf (get_save_files req d (file_list σ)).1 σ Hwf)
    as (upd & σa & Hrun & Hwfa).
  { intros k v [Hin | (c & _ & _ & ->)]%Hent; [by apply elem_of_nil in Hin|]. simpl. eauto. }
  unfold start_file_list_update, update_file_list_selector, bind, gets.
  destruct (get_save_files req d (file_list σ)) as [save_files errs]. simpl in *.
  rewrite Hrun. split; [done|].
  unfold filter_file_list_selector.
  destruct (filter_items (filter_input σa) (file_selector σa)) as [[[]|e] items].
  - pose proof (start_file_list_update_new_frame json_load d (set_file_selector items σa))
      as (He & Ho & Hf & _).
    destruct (start_file_list_update_new json_load d (set_file_selector items σa))
      as [[[]|e] σ1]; simpl in *.
    + apply (table_wf_same_table σa); [done | | by rewrite Hf | done].
      apply Ho. destruct Hwfa as (ls & -> & _). eauto.
    + apply (table_wf_same_table σa); [done | | by rewrite Hf | done].
      apply Ho. destruct Hwfa as (ls & -> & _). eauto.
  - simpl. by apply (table_wf_same_table σa).
Qed.
End Invariant.

(** A file that is in the table and was modified on disk keeps its old
    modification time in the table, so every later scan parses it again. *)
Example modified_file_is_parsed_again :
  od_keys (get_save_files "test.req" dir_a_touched (file_list state_ab)).1 = ["test_a.snap"]
  ∧ fd_modif_time <$> file_list state_a_touched !! "test_a.snap" = Some 100
  ∧ od_keys (get_save_files "test.req" dir_a_touched (file_list state_a_touched)).1
    = ["test_a.snap"].
Proof.
  split; [vm_compute; reflexivity|]. split; vm_compute; reflexivity.
Qed.

(* ===================================================================== *)
(** * Part III: further properties of the widget *)
(* ===================================================================== *)

(** ** The aggregated restore result, in general *)

(** An item counts as failed when its status is [access_err] or
    [type_err]. *)
Lemma restore_done_step_error (forced : bool) (st : restore_loop_state) (it : string * PvStatus) :
  rl_error (restore_done_step forced st it)
  = match it.2 with
    | access_err => negb forced
    | type_err => true
    | _ => rl_error st
    end.
Proof. destruct it as [pv []]; done. Qed.

(** X1: The error state of a restore is decided by the last failed item
    alone: an access error gives [not forced], a type error gives the
    error state, and a batch without failed items is no error. *)
Theorem restore_done_last_failure_decides (status : odict PvStatus) (forced : bool) :
  rr_error (restore_done status forced)
  = match last (List.filter (λ it, bool_decide (it.2 = access_err ∨ it.2 = type_err)) status) with
    | Some (_, type_err) => true
    | Some (_, access_err) => negb forced
    | _ => false
    end.
Proof.
  rewrite restore_done_error.
  assert (G : ∀ st,
    rl_error (foldl (restore_done_step forced) st status)
    = match last (List.filter (λ it, bool_decide (it.2 = access_err ∨ it.2 = type_err)) status) with
      | Some (_, type_err) => true
      | Some (_, access_err) => negb forced
      | Some _ => false
      | None => rl_error st
      end).
  { induction status as [|[pv sts] rest IH] using rev_ind; intros st; [done|].
    rewrite foldl_app, List.filter_app. cbn [foldl List.filter].
    rewrite restore_done_step_error. cbn [snd].
    destruct sts; simpl; rewrite ?app_nil_r, ?last_snoc; try done; apply IH. }
  rewrite G. simpl.
  by destruct (last _) as [[? []]|].
Qed.

(** X2: The log of a restore holds one warning for each failed item, in the
    order of the items, and ends with "Restore finished." exactly when
    the batch is no error. *)
Theorem restore_done_logs_every_failure (status : odict PvStatus) (forced : bool) :
  rr_log (restore_done status forced)
  = (map (λ it : string * PvStatus,
            "WARNING: " +:+ it.1 +:+
            (if bool_decide (it.2 = access_err)
             then ": Not restored (no connection or no read access)."
             else ": Not restored (type problem)."))
         (List.filter (λ it, bool_decide (it.2 = access_err ∨ it.2 = type_err)) status)
     ++ if rr_error (restore_done status forced) then [] else ["Restore finished."])%list.
Proof.
  assert (G : ∀ st,
    rl_msgs (foldl (restore_done_step forced) st status)
    = (rl_msgs st ++
       map (λ it : string * PvStatus,
              "WARNING: " +:+ it.1 +:+
              (if bool_decide (it.2 = access_err)
               then ": Not restored (no connection or no read access)."
               else ": Not restored (type problem)."))
           (List.filter (λ it, bool_decide (it.2 = access_err ∨ it.2 = type_err)) status))%list).
  { induction status as [|[pv sts] rest IH]; intros st; simpl; [by rewrite app_nil_r|].
    rewrite IH. destruct sts; simpl; try done; by rewrite <- app_assoc. }
  unfold restore_done.
  destruct (rl_error (foldl _ _ status)) eqn:Herr; simpl; rewrite G; simpl.
  - by rewrite app_nil_r.
  - done.
Qed.

(** ** The row filter, in general *)

Section FilterMore.
Context {pv_value : Type}.
Implicit Types (σ : gui_state pv_value) (items : list tree_item) (ff : file_filter).


(** X3: The filter changes nothing but the hidden flags of the rows: the
    table, the shared labels and the filter itself stay, and so does
    every column and the meta data of every row, however the filter
    ends. *)
Theorem filter_file_list_selector_frame σ :
  let σ' := (filter_file_list_selector σ).2 in
  file_list σ' = file_list σ
  ∧ objs σ' = objs σ
  ∧ existing_labels σ' = existing_labels σ
  ∧ filter_input σ' = filter_input σ
  ∧ same_rows (file_selector σ') (file_selector σ).
Proof.
  unfold filter_file_list_selector.
  pose proof (filter_items_rows (filter_input σ) (file_selector σ)) as Hrows.
  destruct (filter_items (filter_input σ) (file_selector σ)) as [r items]. done.
Qed.


(** X5: With nothing asked for, the filter goes through all rows and shows
    each of them, also those that were hidden. *)
Theorem filter_items_clear_shows_all items :
  filter_items clear_filter items = (Ok (), map (set_hidden false) items).
Proof.
  induction items as [|item rest IH]; simpl; [done|].
  unfold row_hidden at 1, name_test, comment_test, labels_test. simpl.
  by rewrite IH.
Qed.

(** X6: With only a comment asked for (no name, no labels), the filter hides
    no row: it shows every row when each row has a comment, whatever the
    comment is, and raises [TypeError] when a row has no meta data or no
    comment in them. *)
Theorem filter_items_comment_only (comment_filter : string) items
    (Hcomment : str_truthy comment_filter = true) :
  let ff := {| ff_keys := []; ff_comment := comment_filter; ff_name := "" |} in
  let has_comment := λ item, bool_decide (is_Some (ti_meta item ≫= md_comment)) in
  if forallb has_comment items
  then filter_items ff items = (Ok (), map (set_hidden false) items)
  else (filter_items ff items).1 = Raise TypeError.
Proof.
  intros ff has_comment.
  assert (Hrow : ∀ item, row_hidden ff item
                  = if has_comment item then Ok false else Raise TypeError).
  { intros item. unfold row_hidden, name_test, comment_test, labels_test, has_comment. simpl.
    rewrite Hcomment. destruct (ti_meta item) as [meta|]; simpl.
    - destruct (md_comment meta) as [c|]; simpl; [|done].
      by rewrite str_in_empty.
    - done. }
  induction items as [|item rest IH]; simpl; [done|].
  rewrite Hrow. destruct (has_comment item); simpl; [|done].
  destruct (forallb has_comment rest).
  - by rewrite IH.
  - destruct (filter_items ff rest) as [r rest']. simpl in *. done.
Qed.

(** X7: The flags of the rows after the filter. When the filter returns,
    every row of the tree that is visible has item data whose labels
    contain each label asked for: a row without a requested label, or
    without item data while labels are asked for, is not left visible.
    When the filter raises, it raises at some row: the rows visited
    before it have the flags of a filter that went through them, and the
    raising row and the rows after it are as they were, visible or not. *)
Theorem filter_file_list_selector_labels σ :
  match filter_file_list_selector σ with
  | (Ok _, σ') =>
      ∀ item key, item ∈ file_selector σ' → key ∈ ff_keys (filter_input σ) →
        ti_hidden item = false →
        ∃ meta labels, ti_meta item = Some meta ∧ md_labels meta = Some labels
                       ∧ key ∈ labels
  | (Raise e, σ') =>
      ∃ pre pre' item post,
        file_selector σ = (pre ++ item :: post)%list
        ∧ filter_items (filter_input σ) pre = (Ok (), pre')
        ∧ row_hidden (filter_input σ) item = Raise e
        ∧ file_selector σ' = (pre' ++ item :: post)%list
  end.
Proof.
  unfold filter_file_list_selector.
  destruct (filter_items (filter_input σ) (file_selector σ)) as [[[]|e] items'] eqn:Hrun; simpl.
  - intros item' key Hin Hkey Hvis.
    apply filter_items_Ok in Hrun.
    apply list_elem_of_lookup in Hin as [i Hi].
    destruct (Forall2_lookup_r _ _ _ _ _ Hrun Hi) as (item & _ & Hrow & Hitem).
    rewrite Hvis in Hrow.
    destruct (row_visible_has_labels _ _ key Hkey Hrow) as (meta & labels & Hm & Hl & Hk).
    exists meta, labels. split; [|done]. by rewrite Hitem.
  - by apply filter_items_Raise.
Qed.
End FilterMore.

Lemma filter_items_comment_only_witness :
  filter_items filter_comment_zzz [item_a; item_b]
  = (Ok (), map (set_hidden false) [item_a; item_b]).
Proof.
  exact (filter_items_comment_only "zzz" [item_a; item_b] eq_refl).
Defined.


(** ** The scan of the directory, in general *)

Section ScanMore.
Context {pv_value : Type}.
Implicit Types (c : save_file pv_value) (d : save_dir pv_value).
Implicit Types (current_files : gmap string (file_data pv_value)).
Implicit Types (parsed : odict (file_data pv_value)) (errs : list (string * list string)).

Lemma get_save_files_loop_length req current_files (candidates : list (save_file pv_value))
    parsed errs :
  (length parsed ≤ 10)%nat →
  (length (get_save_files_loop req current_files candidates parsed errs).1 ≤ 11)%nat.
Proof.
  revert parsed errs. induction candidates as [|c rest IH]; intros parsed errs Hlen.
  - simpl. lia.
  - rewrite get_save_files_loop_cons. destruct (accepted req current_files c); [|by apply IH].
    simpl. pose proof (od_length_set_le parsed (sf_name c) (parsed_entry c)).
    case_bool_decide; simpl; [lia|]. apply IH. lia.
Qed.

(** X8: One scan returns at most eleven parsed files, however many save
    files the directory holds. *)
Theorem get_save_files_at_most_eleven req d current_files :
  (length (get_save_files req d current_files).1 ≤ 11)%nat.
Proof. apply get_save_files_loop_length. simpl. lia. Qed.

(** X9: When every save file of the glob is in the table with the
    modification time it has on disk, the scan parses nothing and
    reports nothing. *)
Theorem get_save_files_nothing_changed req d current_files
    (Hsame : ∀ c, c ∈ glob_req d →
               ∃ data, current_files !! sf_name c = Some data
                       ∧ fd_modif_time data = sf_mtime c) :
  get_save_files req d current_files = ([], []).
Proof.
  apply get_save_files_loop_none. intros c Hc.
  destruct (Hsame c Hc) as (data & Hdata & Htime).
  unfold accepted, new_or_modified. rewrite Hdata.
  rewrite bool_decide_eq_false_2 by (by intros ?).
  by rewrite andb_false_r.
Qed.

Lemma od_keys_set_elem parsed k (v : file_data pv_value) k' :
  k' ∈ od_keys (od_set parsed k v) ↔ k' = k ∨ k' ∈ od_keys parsed.
Proof.
  induction parsed as [|[k0 v0] parsed IH]; simpl.
  - rewrite list_elem_of_singleton. split; [by left | intros [?|?%elem_of_nil]; done].
  - destruct (String.eqb_spec k0 k) as [->|Hne]; simpl.
    + rewrite elem_of_cons. tauto.
    + rewrite !elem_of_cons. unfold od_keys in IH. rewrite IH. tauto.
Qed.

Lemma get_save_files_loop_reported req current_files (candidates : list (save_file pv_value))
    parsed errs :
  (∀ name e, (name, e) ∈ errs → name ∈ od_keys parsed ∧ e ≠ []) →
  (∀ name e, (name, e) ∈ (get_save_files_loop req current_files candidates parsed errs).2 →
     name ∈ od_keys (get_save_files_loop req current_files candidates parsed errs).1 ∧ e ≠ []).
Proof.
  revert parsed errs. induction candidates as [|c rest IH]; intros parsed errs Hinv; [done|].
  rewrite get_save_files_loop_cons. destruct (accepted req current_files c); [|by apply IH].
  assert (Hinv' : ∀ name e,
            (name, e) ∈ match sf_err c with
                        | [] => errs
                        | _ => (errs ++ [(sf_name c, sf_err c)])%list
                        end →
            name ∈ od_keys (od_set parsed (sf_name c) (parsed_entry c)) ∧ e ≠ []).
  { intros name e Hin. rewrite od_keys_set_elem.
    destruct (sf_err c) as [|e0 es] eqn:He.
    - destruct (Hinv name e Hin). split; [by right | done].
    - apply elem_of_app in Hin as [Hin|Hin].
      + destruct (Hinv name e Hin). split; [by right | done].
      + apply list_elem_of_singleton in Hin. injection Hin as -> ->. split; [by left | done]. }
  simpl. case_bool_decide; simpl; [done | by apply IH].
Qed.

Lemma get_save_files_errors_of_returned_files_aux req d current_files (name : string)
    (e : list string) :
  (name, e) ∈ (get_save_files req d current_files).2 → e ≠ [].
Proof.
  intros Hin.
  apply (get_save_files_loop_reported req current_files (glob_req d) [] []) in Hin; [tauto|].
  intros n e' Hin'. by apply elem_of_nil in Hin'.
Qed.

(** X10: Errors are reported for returned files only: every name in the list
    of errors is a key of the returned dictionary, and its list of errors
    is not empty. *)
Theorem get_save_files_errors_of_returned_files req d current_files (name : string)
    (e : list string)
    (Hreported : (name, e) ∈ (get_save_files req d current_files).2) :
  name ∈ od_keys (get_save_files req d current_files).1 ∧ e ≠ [].
Proof.
  revert Hreported. apply get_save_files_loop_reported.
  intros n e' Hin. by apply elem_of_nil in Hin.
Qed.
End ScanMore.

Lemma get_save_files_nothing_changed_witness :
  get_save_files "test.req" dir_ab (file_list state_ab) = ([], []).
Proof.
  apply get_save_files_nothing_changed.
  intros c Hc. apply list_elem_of_In in Hc. simpl in Hc.
  destruct Hc as [<-|[<-|[]]]; vm_compute; eauto.
Defined.

Lemma get_save_files_errors_of_returned_files_witness :
  "test_err.snap" ∈ od_keys (get_save_files "test.req" dir_err (file_list initial_state)).1
  ∧ ["DEV:STATE: value cannot be parsed"] ≠ [].
Proof.
  apply (get_save_files_errors_of_returned_files "test.req" dir_err (file_list initial_state)).
  vm_compute. left.
Defined.

(** ** The table update, in general *)

Section UpdateMore.
Context {pv_value : Type}.
Implicit Types (σ : gui_state pv_value) (c : save_file pv_value) (d : save_dir pv_value).
Implicit Types (data v : file_data pv_value) (l : positive) (k : string).
Implicit Types (modif_file_list upd : odict (file_data pv_value)).

(** The table after an iteration that does not raise. *)
Lemma update_one_file_list l k v σ v' σ' :
  update_one l k v σ = (Ok v', σ') →
  file_list σ'
  = <[k := match file_list σ !! k with
           | Some ref => with_new_content v ref
           | None => v'
           end]> (file_list σ).
Proof.
  destruct (file_list σ !! k) as [ref|] eqn:Hk.
  - destruct (md_labels (fd_meta_data ref)) as [old_labels|] eqn:Hold; cycle 1.
    { unfold update_one, bind, gets. by rewrite Hk, Hold. }
    destruct (objs σ !! l) as [[cur|s]|] eqn:Hobj; cycle 1.
    { unfold update_one, bind, gets, read_list. by rewrite Hk, Hold, Hobj. }
    { unfold update_one, bind, gets, read_list. by rewrite Hk, Hold, Hobj. }
    rewrite (update_one_modified l k v σ ref old_labels cur) by done. simpl.
    match goal with
    | |- context [prune_labels l ?r ?σ1] =>
        pose proof (prune_labels_frame l r σ1) as (H1 & _);
        destruct (prune_labels l r σ1) as [[[]|e] σ2]; [|done]
    end.
    simpl in *. destruct (fd_file_selector ref) as [id|]; [|done].
    intros [= <- <-]. simpl. by rewrite H1.
  - rewrite update_one_new by done. simpl.
    destruct (objs σ !! l) as [[cur|s]|] eqn:Hobj; [|done|done].
    by intros [= <- <-].
Qed.

Lemma update_one_keeps_time l k v σ v' σ' k0 data :
  update_one l k v σ = (Ok v', σ') →
  file_list σ !! k0 = Some data →
  ∃ data', file_list σ' !! k0 = Some data'
           ∧ fd_modif_time data' = fd_modif_time data
           ∧ fd_file_selector data' = fd_file_selector data.
Proof.
  intros Hrun Hdata. rewrite (update_one_file_list _ _ _ _ _ _ Hrun).
  destruct (decide (k = k0)) as [->|Hne].
  - rewrite Hdata, lookup_insert_eq. by eexists.
  - rewrite lookup_insert_ne by done. by exists data.
Qed.

Lemma update_loop_keeps_time l modif_file_list σ upd σ' k0 data :
  update_loop l modif_file_list σ = (Ok upd, σ') →
  file_list σ !! k0 = Some data →
  ∃ data', file_list σ' !! k0 = Some data'
           ∧ fd_modif_time data' = fd_modif_time data
           ∧ fd_file_selector data' = fd_file_selector data.
Proof.
  revert σ upd data. induction modif_file_list as [|[k v] rest IH]; intros σ upd data.
  - simpl. intros [= <- <-] Hdata. by exists data.
  - rewrite update_loop_cons.
    destruct (update_one l k v σ) as [[v'|e] σ1] eqn:Hone; [|done].
    destruct (update_loop l rest σ1) as [[rest'|e] σ2] eqn:Hrest; [|done].
    intros [= <- <-] Hdata.
    destruct (update_one_keeps_time _ _ _ _ _ _ _ _ Hone Hdata) as (data1 & Hd1 & Ht1 & Hs1).
    destruct (IH _ _ _ Hrest Hd1) as (data2 & Hd2 & Ht2 & Hs2).
    exists data2. split; [done|]. split; congruence.
Qed.

(** X11: The table update never changes the modification time stored for a
    file that is already in the table. So a file of the table that a scan
    has found modified is found modified by the next scan as well, with
    the same file on disk. *)
Theorem modified_file_is_found_again (req : string) modif_file_list σ upd σ' c data
    (Hrun : update_file_list_selector modif_file_list σ = (Ok upd, σ'))
    (Hknown : file_list σ !! sf_name c = Some data)
    (Haccepted : accepted req (file_list σ) c = true) :
  (∃ data', file_list σ' !! sf_name c = Some data'
            ∧ fd_modif_time data' = fd_modif_time data)
  ∧ accepted req (file_list σ') c = true.
Proof.
  unfold update_file_list_selector, bind, gets in Hrun. simpl in Hrun.
  destruct (update_loop_keeps_time _ _ _ _ _ _ _ Hrun Hknown) as (data' & Hd' & Ht' & _).
  split; [by exists data'|].
  revert Haccepted. unfold accepted, new_or_modified. by rewrite Hknown, Hd', Ht'.
Qed.

(** X12: The table update returns a dictionary with the keys it was given, in
    their order, and leaves the entries of all other files alone. *)
Theorem update_file_list_selector_other_files modif_file_list σ upd σ'
    (Hkeys : NoDup (od_keys modif_file_list))
    (Hrun : update_file_list_selector modif_file_list σ = (Ok upd, σ')) :
  od_keys upd = od_keys modif_file_list
  ∧ ∀ k, k ∉ od_keys modif_file_list → file_list σ' !! k = file_list σ !! k.
Proof.
  unfold update_file_list_selector, bind, gets in Hrun. simpl in Hrun.
  apply update_loop_table in Hrun as (H1 & _ & _ & _ & H2 & _); done.
Qed.

Lemma suggested_labels_update_one_new k v σ v' σ' :
  file_list σ !! k = None →
  update_one (existing_labels σ) k v σ = (Ok v', σ') →
  suggested_labels σ'
  = (suggested_labels σ
     ++ set_difference_list (default [] (md_labels (fd_meta_data v))) (suggested_labels σ))%list.
Proof.
  intros Hnew. rewrite update_one_new by done. simpl. unfold suggested_labels.
  destruct (objs σ !! existing_labels σ) as [[cur|s]|] eqn:Hobj; [|done|done].
  intros [= <- <-]. simpl. by rewrite lookup_insert_eq.
Qed.

(** X13: Entering files that are all new to the table only appends to the
    list of existing labels: the labels suggested before stay where they
    are, each appended label is a label of one of the new files, and a
    list without duplicates stays without duplicates. *)
Theorem new_files_append_labels modif_file_list σ upd σ'
    (Hkeys : NoDup (od_keys modif_file_list))
    (Hnew : ∀ k, k ∈ od_keys modif_file_list → file_list σ !! k = None)
    (Hrun : update_file_list_selector modif_file_list σ = (Ok upd, σ')) :
  ∃ added,
    suggested_labels σ' = (suggested_labels σ ++ added)%list
    ∧ (∀ x, x ∈ added →
         ∃ k v, (k, v) ∈ modif_file_list ∧ x ∈ default [] (md_labels (fd_meta_data v)))
    ∧ (NoDup (suggested_labels σ) → NoDup (suggested_labels σ')).
Proof.
  unfold update_file_list_selector, bind, gets in Hrun. simpl in Hrun.
  remember (existing_labels σ) as l eqn:Hl.
  revert σ upd Hl Hnew Hrun.
  induction modif_file_list as [|[k v] rest IH]; intros σ upd Hl Hnew.
  - simpl. intros [= <- <-]. exists []. rewrite app_nil_r. split; [done|].
    split; [|done]. intros x Hx. by apply elem_of_nil in Hx.
  - rewrite update_loop_cons.
    destruct (update_one l k v σ) as [[v'|e] σ1] eqn:Hone; [|done].
    destruct (update_loop l rest σ1) as [[rest'|e] σ2] eqn:Hrest; [|done].
    intros [= <- <-]. simpl in Hkeys. apply NoDup_cons in Hkeys as [Hk Hkeys].
    pose proof (update_one_table _ _ _ _ _ _ Hone) as (He1 & _ & _ & Hother1 & _).
    subst l.
    pose proof (suggested_labels_update_one_new k v σ v' σ1 (Hnew k ltac:(left)) Hone) as Hs1.
    destruct (IH Hkeys σ1 rest') as (added & Hs2 & Hfrom & Hnd); [by rewrite He1 | | done |].
    { intros k' Hk'. rewrite Hother1; [apply Hnew; by right|]. by intros ->. }
    eexists. rewrite Hs2, Hs1, <- app_assoc. split; [done|]. split.
    + intros x [Hx|Hx]%elem_of_app.
      * apply elem_of_set_difference_list in Hx as [Hx _]. exists k, v. split; [left | done].
      * destruct (Hfrom x Hx) as (k' & v0 & Hin & Hlab). exists k', v0. split; [by right | done].
    + intros Hnd0. rewrite app_assoc, <- Hs1, <- Hs2. apply Hnd. rewrite Hs1.
      apply NoDup_app. split; [done|]. split; [|apply NoDup_set_difference_list].
      intros x Hx Hx'. by apply elem_of_set_difference_list in Hx' as [_ ?].
Qed.

(** The table update on the result of a scan keeps a well-formed state
    well formed. *)
Lemma scan_update_wf (req : string) d σ :
  table_wf σ →
  table_wf (update_file_list_selector (get_save_files req d (file_list σ)).1 σ).2.
Proof.
  intros Hwf.
  destruct (get_save_files_loop_entries req (file_list σ) (glob_req d) [] [])
    as [_ Hent]; [apply NoDup_nil_2|]. simpl in Hent.
  destruct (update_loop_wf (get_save_files req d (file_list σ)).1 σ Hwf)
    as (upd & σa & Hrun & Hwfa).
  { intros k v [Hin | (c & _ & _ & ->)]%Hent; [by apply elem_of_nil in Hin|]. simpl. eauto. }
  unfold update_file_list_selector, bind, gets. simpl. by rewrite Hrun.
Qed.
End UpdateMore.

Lemma table_wf_initial_state : table_wf initial_state.
Proof. by apply (table_wf_empty initial_state []). Qed.

Lemma table_wf_state_ab : table_wf state_ab.
Proof. apply (scan_update_wf "test.req" dir_ab), table_wf_initial_state. Qed.

Lemma modified_file_is_found_again_witness :
  accepted "test.req" (file_list state_a_touched) (sample_save_file "test_a.snap" 150 meta_a)
  = true.
Proof.
  refine (proj2 (modified_file_is_found_again "test.req"
            (get_save_files "test.req" dir_a_touched (file_list state_ab)).1 state_ab
            (changed_of (update_file_list_selector
               (get_save_files "test.req" dir_a_touched (file_list state_ab)).1 state_ab).1)
            state_a_touched (sample_save_file "test_a.snap" 150 meta_a)
            (with_file_selector 0 (parsed_entry file_a)) _ _ _)).
  - vm_compute. reflexivity.
  - vm_compute. reflexivity.
  - vm_compute. reflexivity.
Defined.

Lemma update_file_list_selector_other_files_witness :
  od_keys (changed_of (update_file_list_selector
             (get_save_files "test.req" dir_ab (file_list initial_state)).1 initial_state).1)
  = od_keys (get_save_files "test.req" dir_ab (file_list initial_state)).1.
Proof.
  refine (proj1 (update_file_list_selector_other_files
            (get_save_files "test.req" dir_ab (file_list initial_state)).1 initial_state
            _ state_ab _ _)).
  - apply (bool_decide_unpack _). vm_compute. exact I.
  - vm_compute. reflexivity.
Defined.

Lemma new_files_append_labels_witness :
  ∃ added, suggested_labels state_ab = (suggested_labels initial_state ++ added)%list.
Proof.
  destruct (new_files_append_labels
              (get_save_files "test.req" dir_ab (file_list initial_state)).1 initial_state
              (changed_of (update_file_list_selector
                 (get_save_files "test.req" dir_ab (file_list initial_state)).1
                 initial_state).1)
              state_ab) as (added & Hadded & _).
  - apply (bool_decide_unpack _). vm_compute. exact I.
  - intros k _. apply lookup_empty.
  - vm_compute. reflexivity.
  - exists added. exact Hadded.
Defined.

(** ** The text of the index file *)

Lemma string_app_cons (x : ascii) (a b : string) : String x a +:+ b = String x (a +:+ b).
Proof. reflexivity. Qed.

Lemma string_app_nil_l (a : string) : "" +:+ a = a.
Proof. reflexivity. Qed.

Lemma string_app_assoc (a b c : string) : (a +:+ b) +:+ c = a +:+ (b +:+ c).
Proof.
  induction a as [|x a IH]; [done|]. rewrite !string_app_cons. by f_equal.
Qed.

Lemma string_app_nil_r (a : string) : a +:+ "" = a.
Proof.
  induction a as [|x a IH]; [done|]. rewrite string_app_cons. by f_equal.
Qed.

Lemma substring_zero_length (n : nat) (s : string) : String.substring n 0 s = "".
Proof. revert n. induction s as [|x s IH]; intros [|n]; simpl; done. Qed.

Lemma str_take_app (a b : string) : str_take (String.length a) (a +:+ b) = a.
Proof.
  unfold str_take. induction a as [|x a IH].
  - apply (substring_zero_length 0).
  - rewrite string_app_cons. simpl. by rewrite IH.
Qed.

Lemma str_drop_app (a b : string) : str_drop (String.length a) (a +:+ b) = b.
Proof.
  unfold str_drop. rewrite string_length_app.
  replace (String.length a + String.length b - String.length a)%nat
    with (String.length b) by lia.
  induction a as [|x a IH]; [|by rewrite string_app_cons].
  rewrite string_app_nil_l. simpl.
  induction b as [|y b IHb]; simpl; [done | by rewrite IHb].
Qed.

Lemma str_drop_past (n : nat) (s : string) :
  (String.length s ≤ n)%nat → str_drop n s = "".
Proof.
  intros Hn. unfold str_drop.
  replace (String.length s - n)%nat with 0%nat by lia. apply substring_zero_length.
Qed.

(** Writing at the end of the file appends. *)
Lemma ts_write_at_end (s : string) (f : text_stream) :
  ts_pos f = String.length (ts_data f) →
  ts_write s f = {| ts_data := ts_data f +:+ s;
                    ts_pos := String.length (ts_data f +:+ s) |}.
Proof.
  intros Hpos. unfold ts_write. rewrite Hpos, string_length_app. f_equal.
  rewrite <- (string_app_nil_r (ts_data f)) at 2.
  rewrite str_take_app, str_drop_past by lia. by rewrite string_app_nil_r.
Qed.

Lemma str_join_cons (sep x : string) (l : list string) :
  l ≠ [] → str_join sep (x :: l) = x +:+ sep +:+ str_join sep l.
Proof. by destruct l. Qed.

Section IndexText.
Context {pv_value : Type}.
Implicit Types (c : save_file pv_value) (d : save_dir pv_value).

Lemma index_line_entry c : index_line c = index_entry c +:+ "," +:+ nl.
Proof. unfold index_line, index_entry. by rewrite ?string_app_assoc. Qed.

Lemma write_index_lines_at_end (candidates : list (save_file pv_value)) (f : text_stream) :
  forallb sf_isfile candidates = true →
  ts_pos f = String.length (ts_data f) →
  write_index_lines candidates f
  = Ok {| ts_data := foldl (λ text c, text +:+ index_line c) (ts_data f) candidates;
          ts_pos := String.length
                      (foldl (λ text c, text +:+ index_line c) (ts_data f) candidates) |}.
Proof.
  revert f. induction candidates as [|c rest IH]; intros f Hfiles Hpos; simpl.
  - destruct f. simpl in *. by rewrite Hpos.
  - simpl in Hfiles. apply andb_true_iff in Hfiles as [-> Hfiles].
    rewrite IH; [| done | by rewrite ts_write_at_end].
    by rewrite ts_write_at_end.
Qed.

Lemma index_lines_join (candidates : list (save_file pv_value)) c (text : string) :
  foldl (λ text c, text +:+ index_line c) text (candidates ++ [c])
  = text +:+ str_join ("," +:+ nl) (map index_entry (candidates ++ [c])) +:+ "," +:+ nl.
Proof.
  revert text. induction candidates as [|c0 rest IH]; intros text.
  - simpl. by rewrite index_line_entry, ?string_app_assoc.
  - change ((c0 :: rest) ++ [c])%list with (c0 :: (rest ++ [c]))%list.
    cbn [foldl map]. rewrite IH, str_join_cons.
    + rewrite index_line_entry, ?string_app_assoc. done.
    + rewrite map_app. by destruct (map index_entry rest).
Qed.

(** X17: For a glob that matches files only, and at least one, the index
    file holds an opening bracket, the pairs of name and header of the
    files separated by a comma and a newline, and a closing bracket: the
    comma after the last pair is gone. *)
Theorem gen_index_file_text d
    (Hsome : glob_idx d ≠ [])
    (Hfiles : forallb sf_isfile (glob_idx d) = true) :
  gen_index_file d
  = Ok ("[" +:+ nl +:+ str_join ("," +:+ nl) (map index_entry (glob_idx d))
        +:+ nl +:+ "]" +:+ nl).
Proof.
  unfold gen_index_file.
  change (ts_write ("[" +:+ nl) {| ts_data := ""; ts_pos := 0 |})
    with {| ts_data := "[" +:+ nl; ts_pos := 2 |}.
  rewrite write_index_lines_at_end by done. cbn [ts_data].
  destruct (exists_last Hsome) as (rest & c0 & ->). clear Hsome Hfiles.
  rewrite index_lines_join.
  set (body := str_join ("," +:+ nl) (map index_entry (rest ++ [c0]))).
  assert (∃ body0, body = body0 +:+ "]") as [body0 Hbody].
  { unfold body. rewrite map_app. simpl.
    generalize (map index_entry rest). intros entries.
    induction entries as [|e entries [b0 IH]].
    - simpl. unfold index_entry. eexists. by rewrite <- ?string_app_assoc.
    - change ((e :: entries) ++ [index_entry c0])%list
        with (e :: (entries ++ [index_entry c0]))%list.
      rewrite str_join_cons by (by destruct entries).
      rewrite IH. eexists. by rewrite <- ?string_app_assoc. }
  replace (("[" +:+ nl) +:+ body +:+ "," +:+ nl)
    with ((("[" +:+ nl) +:+ body0) +:+ "]," +:+ nl)
    by (rewrite Hbody, ?string_app_assoc; done).
  unfold ts_seek, ts_tell. cbn [ts_pos].
  rewrite bool_decide_eq_false_2.
  2:{ rewrite string_length_app. simpl. lia. }
  cbn [ts_write ts_data ts_pos]. f_equal.
  replace (Z.to_nat (Z.of_nat (String.length ((("[" +:+ nl) +:+ body0) +:+ "]," +:+ nl)) - 3))
    with (String.length (("[" +:+ nl) +:+ body0)).
  2:{ rewrite (string_length_app (("[" +:+ nl) +:+ body0)). simpl. lia. }
  rewrite str_take_app, str_drop_past.
  2:{ rewrite (string_length_app (("[" +:+ nl) +:+ body0)). simpl. lia. }
  rewrite Hbody, string_app_nil_r, ?string_app_assoc. done.
Qed.
End IndexText.

Lemma gen_index_file_text_witness :
  gen_index_file dir_ab
  = Ok ("[" +:+ nl +:+ str_join ("," +:+ nl) (map index_entry [file_a; file_b])
        +:+ nl +:+ "]" +:+ nl).
Proof.
  apply (gen_index_file_text dir_ab); [discriminate | reflexivity].
Defined.

(** ** The index pass and the deletion of files, in general *)

Section IndexPassMore.
Context {pv_value : Type}.
Variable json_load : string → result (list (string * meta_data)).
Implicit Types (σ : gui_state pv_value) (d : save_dir pv_value).

Lemma index_loop_rows d (labels_ref : positive) (fnSet : gset string)
    (idx_data : list (string * meta_data)) (n : nat) σ :
  (n ≤ 10)%nat →
  ∃ new,
    file_selector (index_loop d labels_ref fnSet idx_data n σ).2
    = (file_selector σ ++ new)%list
    ∧ (length new + n ≤ 11)%nat
    ∧ Forall (λ item, ∃ meta,
                (ti_file item, meta) ∈ idx_data
                ∧ (ti_file item ∉ fnSet)
                ∧ ti_meta item = Some meta
                ∧ getmtime d (ti_file item) = Ok (ti_time item)
                ∧ ti_comment item = default "" (md_comment meta)
                ∧ ti_labels item = str_join " " (default [] (md_labels meta))
                ∧ ti_hidden item = false) new.
Proof.
  revert n σ. induction idx_data as [|[fn meta] rest IH]; intros n σ Hn.
  - exists []. simpl. rewrite app_nil_r. split; [done|]. split; [simpl; lia | constructor].
  - assert (Hrest : ∀ new : list tree_item,
              Forall (λ item, ∃ meta0,
                        (ti_file item, meta0) ∈ rest
                        ∧ (ti_file item ∉ fnSet)
                        ∧ ti_meta item = Some meta0
                        ∧ getmtime d (ti_file item) = Ok (ti_time item)
                        ∧ ti_comment item = default "" (md_comment meta0)
                        ∧ ti_labels item = str_join " " (default [] (md_labels meta0))
                        ∧ ti_hidden item = false) new →
              Forall (λ item, ∃ meta0,
                        (ti_file item, meta0) ∈ (fn, meta) :: rest
                        ∧ (ti_file item ∉ fnSet)
                        ∧ ti_meta item = Some meta0
                        ∧ getmtime d (ti_file item) = Ok (ti_time item)
                        ∧ ti_comment item = default "" (md_comment meta0)
                        ∧ ti_labels item = str_join " " (default [] (md_labels meta0))
                        ∧ ti_hidden item = false) new).
    { intros new Hall. eapply Forall_impl; [exact Hall|]. intros item (meta0 & Hin & H).
      exists meta0. split; [by right | done]. }
    cbn [index_loop]. case_bool_decide as Hfn.
    { destruct (IH n σ Hn) as (new & Hrows & Hlen & Hall).
      exists new. split; [done|]. split; [done|]. by apply Hrest. }
    unfold bind, lift. destruct (getmtime d fn) as [modTime|e] eqn:Htime; simpl.
    2:{ exists []. rewrite app_nil_r. split; [done|]. split; [simpl; lia | constructor]. }
    assert (Hone : ∀ id, ∃ meta0,
              (ti_file (new_tree_item id modTime fn (default "" (md_comment meta))
                          (default [] (md_labels meta)) (Some meta)), meta0)
              ∈ (fn, meta) :: rest
              ∧ (fn ∉ fnSet)
              ∧ Some meta = Some meta0
              ∧ getmtime d fn = Ok modTime
              ∧ default "" (md_comment meta) = default "" (md_comment meta0)
              ∧ str_join " " (default [] (md_labels meta))
                = str_join " " (default [] (md_labels meta0))
              ∧ false = false).
    { intros id. exists meta. split; [left | done]. }
    unfold add_top_level_item, set_update. simpl.
    destruct (objs σ !! labels_ref) as [[x|s]|] eqn:Hobj; simpl.
    + eexists [_]. split; [done|]. split; [simpl; lia|].
      constructor; [exact (Hone _) | constructor].
    + case_bool_decide as Hbreak; simpl.
      * eexists [_]. split; [done|]. split; [simpl; lia|].
        constructor; [exact (Hone _) | constructor].
      * match goal with
        | |- context [index_loop d labels_ref fnSet rest (S n) ?σ1] =>
            destruct (IH (S n) σ1) as (new & Hrows & Hlen & Hall); [lia|]
        end.
        simpl in Hrows. eexists (_ :: new). rewrite Hrows, <- app_assoc.
        split; [done|]. split; [simpl; lia|].
        constructor; [exact (Hone _) | by apply Hrest].
    + eexists [_]. split; [done|]. split; [simpl; lia|].
      constructor; [exact (Hone _) | constructor].
Qed.

(** X18: One index pass adds at most eleven rows to the tree, however it
    ends, and leaves the rows that were there as they are (the order of
    the rows is left open: the view sorts them when sorting is switched
    on again). Each added row is made from an entry of the decoded index
    whose file name was not in the tree: its item data is the decoded
    header of that entry, its comment and labels columns are the comment
    and the labels of that header (empty when the header lacks them), its
    time is the modification time of the file, and it is visible. *)
Theorem start_file_list_update_new_rows d σ :
  ∃ new,
    file_selector (start_file_list_update_new json_load d σ).2
    ≡ₚ (file_selector σ ++ new)%list
    ∧ (length new ≤ 11)%nat
    ∧ Forall (λ item, ∃ text idx_data meta,
                gen_index_file d = Ok text
                ∧ json_load text = Ok idx_data
                ∧ (ti_file item, meta) ∈ idx_data
                ∧ (ti_file item ∉ map ti_file (file_selector σ))
                ∧ ti_meta item = Some meta
                ∧ getmtime d (ti_file item) = Ok (ti_time item)
                ∧ ti_comment item = default "" (md_comment meta)
                ∧ ti_labels item = str_join " " (default [] (md_labels meta))
                ∧ ti_hidden item = false) new.
Proof.
  assert (Hnone : ∀ P : tree_item → Prop, ∃ new : list tree_item,
            file_selector σ ≡ₚ (file_selector σ ++ new)%list ∧ (length new ≤ 11)%nat
            ∧ Forall P new).
  { intros P. exists []. rewrite app_nil_r. split; [done|]. split; [simpl; lia | constructor]. }
  unfold start_file_list_update_new, bind, gets, new_set_of, lift. simpl.
  destruct (objs σ !! existing_labels σ) as [o|]; [|apply Hnone]. simpl.
  destruct (gen_index_file d) as [text|e] eqn:Htext; [|apply Hnone].
  destruct (json_load text) as [idx_data|e] eqn:Hjson; [|apply Hnone]. simpl.
  match goal with
  | |- context [index_loop d ?r ?s idx_data 0%nat ?σ1] =>
      destruct (index_loop_rows d r s idx_data 0%nat σ1) as (new & Hrows & Hlen & Hall); [lia|]
  end.
  simpl in Hrows. exists new. split; [by rewrite Hrows|]. split; [lia|].
  eapply Forall_impl; [exact Hall|]. intros item (meta & Hin & Hfile & Hrest).
  exists text, idx_data, meta. split; [done|]. split; [done|]. split; [done|].
  split; [|done]. intros Hlisted. apply Hfile. by apply elem_of_list_to_set.
Qed.

(** X19: When every file of the index is listed in the tree already, the
    index pass returns and leaves the tree, the table and the shared list
    of labels as they are. *)
Theorem start_file_list_update_new_nothing_new d σ (o : pyobj) (text : string)
    (idx_data : list (string * meta_data))
    (Hlabels : objs σ !! existing_labels σ = Some o)
    (Htext : gen_index_file d = Ok text)
    (Hjson : json_load text = Ok idx_data)
    (Hlisted : ∀ fn meta, (fn, meta) ∈ idx_data → fn ∈ map ti_file (file_selector σ)) :
  ∃ σ', start_file_list_update_new json_load d σ = (Ok (), σ')
        ∧ file_list σ' = file_list σ
        ∧ file_selector σ' = file_selector σ
        ∧ suggested_labels σ' = suggested_labels σ.
Proof.
  destruct (start_file_list_update_new_listed json_load d σ o text idx_data)
    as (σ' & Hrun & Hf & Hr & He & Ho); try done.
  exists σ'. repeat split; try done.
  unfold suggested_labels. by rewrite He, Ho, Hlabels.
Qed.

End IndexPassMore.

(** An index pass on the directory of the two sample files, with an empty
    tree: one row for each file, with the header of the file as item
    data. *)
Example start_file_list_update_new_sample :
  file_selector (start_file_list_update_new (sample_json_load dir_ab) dir_ab initial_state).2
  = [new_tree_item 0 100 "test_a.snap" "baseline" ["shift1"] (Some meta_a);
     new_tree_item 1 200 "test_b.snap" "" ["shift1"; "shift2"] (Some meta_b)].
Proof. vm_compute. reflexivity. Qed.

Section DeleteMore.
Context {pv_value : Type}.
Implicit Types (σ : gui_state pv_value).

(** The table after the loop over the selected files has run through. *)
Lemma delete_loop_table (os_remove : string → bool) (selected_files : list string) σ σ' :
  delete_loop os_remove selected_files σ = (Ok (), σ') →
  ∀ f, file_list σ' !! f
       = if bool_decide (f ∈ selected_files ∧ os_remove f = true) then None
         else file_list σ !! f.
Proof.
  revert σ. induction selected_files as [|f0 rest IH]; intros σ; cbn [delete_loop].
  - intros [= <-] f. rewrite bool_decide_eq_false_2; [done|]. intros [H _]. by apply elem_of_nil in H.
  - destruct (os_remove f0) eqn:Hrm.
    + unfold bind, gets. cbn [fst snd]. destruct (file_list σ !! f0) as [data|]; [|done].
      unfold modify. cbn [file_selector set_file_list].
      destruct (take_item f0 (file_selector σ)) as [items'|]; [|done].
      intros Hrun f. rewrite (IH _ Hrun f). cbn [file_list set_file_list set_file_selector].
      destruct (decide (f = f0)) as [->|Hne].
      * rewrite lookup_delete_eq. rewrite (bool_decide_eq_true_2 (f0 ∈ f0 :: rest ∧ _));
          [by case_bool_decide | split; [left | done]].
      * rewrite lookup_delete_ne by done.
        destruct (decide (f ∈ rest ∧ os_remove f = true)) as [Hin|Hin].
        -- rewrite !bool_decide_eq_true_2; [done | | done].
           split; [right|]; tauto.
        -- rewrite !bool_decide_eq_false_2; [done | | done].
           intros [[->|?]%elem_of_cons ?]; tauto.
    + intros Hrun f. rewrite (IH _ Hrun f).
      destruct (decide (f ∈ rest ∧ os_remove f = true)) as [Hin|Hin].
      * rewrite !bool_decide_eq_true_2; [done | | done]. split; [right|]; tauto.
      * rewrite !bool_decide_eq_false_2; [done | | done].
        intros [[->|?]%elem_of_cons ?]; [congruence | tauto].
Qed.

(** X20: When the deletion of the selected files runs through, exactly the
    selected files that [os.remove] has removed are gone from the table,
    and the entries of all other files are untouched. *)
Theorem evt_delete_files_table (selected_files : list string) (os_remove : string → bool)
    σ σ'
    (Hrun : evt_delete_files selected_files true os_remove σ = (Ok (), σ')) :
  ∀ f, file_list σ' !! f
       = if bool_decide (f ∈ selected_files ∧ os_remove f = true) then None
         else file_list σ !! f.
Proof.
  unfold evt_delete_files in Hrun. destruct selected_files as [|f0 rest].
  - unfold ret in Hrun. injection Hrun as <-. intros f. rewrite bool_decide_eq_false_2; [done|].
    intros [H _]. by apply elem_of_nil in H.
  - by apply delete_loop_table.
Qed.

(** X21: A file that [os.remove] cannot remove stays in the table and in the
    tree: when no selected file can be removed, the deletion returns
    without an exception and the state is what it was. *)
Theorem evt_delete_files_os_error (selected_files : list string) (reply_yes : bool)
    (os_remove : string → bool) σ
    (Hfail : ∀ f, f ∈ selected_files → os_remove f = false) :
  evt_delete_files selected_files reply_yes os_remove σ = (Ok (), σ).
Proof.
  unfold evt_delete_files. destruct selected_files as [|f0 rest] eqn:E; [done|].
  destruct reply_yes; [|done]. rewrite <- E in *. clear E.
  induction selected_files as [|f rest' IH]; [done|].
  simpl. rewrite (Hfail f) by left. apply IH. intros f' Hf'. apply Hfail. by right.
Qed.

(** A selected file that is listed in the tree without being in the
    table (a row of the index pass) is removed from disk, and then the
    deletion stops with [KeyError]: its row stays in the tree and the
    files selected after it are not deleted. *)
Theorem evt_delete_files_not_in_table (f : string) (rest : list string)
    (os_remove : string → bool) σ
    (Hremoved : os_remove f = true)
    (Hunknown : file_list σ !! f = None) :
  evt_delete_files (f :: rest) true os_remove σ = (Raise KeyError, σ).
Proof.
  unfold evt_delete_files. simpl. rewrite Hremoved. unfold bind, gets. simpl.
  by rewrite Hunknown.
Qed.
End DeleteMore.

Lemma start_file_list_update_new_nothing_new_witness :
  ∃ σ', start_file_list_update_new (sample_json_load dir_ab) dir_ab (first_run dir_ab).2
        = (Ok (), σ')
        ∧ file_list σ' = file_list (first_run dir_ab).2
        ∧ file_selector σ' = file_selector (first_run dir_ab).2
        ∧ suggested_labels σ' = suggested_labels (first_run dir_ab).2.
Proof.
  apply (start_file_list_update_new_nothing_new (sample_json_load dir_ab) dir_ab
           (first_run dir_ab).2 (PyList ["shift1"; "shift2"])
           (match gen_index_file dir_ab with Ok text => text | Raise _ => "" end)
           (map (λ c, (sf_name c, sf_meta_data c)) (glob_idx dir_ab))).
  - vm_compute. reflexivity.
  - vm_compute. reflexivity.
  - vm_compute. reflexivity.
  - intros fn meta Hin. apply list_elem_of_In in Hin. simpl in Hin.
    destruct Hin as [[= <- <-]|[[= <- <-]|[]]]; apply list_elem_of_In; vm_compute; tauto.
Defined.

Lemma evt_delete_files_table_witness :
  file_list state_b_deleted !! "test_b.snap"
  = if bool_decide ("test_b.snap" ∈ ["test_b.snap"] ∧ (λ _ : string, true) "test_b.snap" = true)
    then None else file_list state_ab !! "test_b.snap".
Proof.
  apply (evt_delete_files_table ["test_b.snap"] (λ _, true) state_ab state_b_deleted).
  vm_compute. reflexivity.
Defined.

Lemma evt_delete_files_os_error_witness :
  evt_delete_files ["test_b.snap"] true (λ _, false) state_ab = (Ok (), state_ab).
Proof.
  apply evt_delete_files_os_error. intros f _. reflexivity.
Defined.

Lemma evt_delete_files_not_in_table_witness :
  evt_delete_files ["test_12.snap"] true (λ _, true) (first_run dir12).2
  = (Raise KeyError, (first_run dir12).2).
Proof.
  apply evt_delete_files_not_in_table; [reflexivity | vm_compute; reflexivity].
Defined.

(** ** The button "Restore Filtered" *)

Section RestoreFiltered.
Context {macros pv_value : Type}.
Variable macros_substitution : string → macros → string.

(** X22: "Restore Filtered" starts no restore exactly when nothing is
    filtered while the snapshot has PVs. When as many names are filtered
    as the snapshot has PVs, the restore is started without a subset, so
    that every value of the selected file is handed on, whatever the
    filtered names are; otherwise the filtered names are the subset. *)
Theorem start_restore_filtered_cases (n_snapshot_pvs : nat) (filtered_pvs : list string)
    (selected_files : list string) (files : gmap string (file_data pv_value))
    (mcr : macros) (force : bool) :
  let started := start_restore_filtered macros_substitution n_snapshot_pvs filtered_pvs
                   selected_files files mcr force in
  (started = None ↔ filtered_pvs = [] ∧ n_snapshot_pvs ≠ 0%nat)
  ∧ (length filtered_pvs = n_snapshot_pvs →
     started = Some (do_restore macros_substitution selected_files files mcr force None))
  ∧ (length filtered_pvs ≠ n_snapshot_pvs → filtered_pvs ≠ [] →
     started = Some (do_restore macros_substitution selected_files files mcr force
                       (Some filtered_pvs))).
Proof.
  unfold start_restore_filtered.
  destruct (Nat.eqb_spec (length filtered_pvs) n_snapshot_pvs) as [Heq|Hne].
  - split; [|split; [done|]].
    + split; [done|]. intros [-> Hn]. simpl in Heq. done.
    + done.
  - destruct filtered_pvs as [|pv rest]; simpl.
    + split; [|split; [done|done]]. split; [|done]. intros _. split; [done|].
      intros ->. by apply Hne.
    + split; [|split; [done|done]]. split; [done|]. by intros [? _].
Qed.
End RestoreFiltered.

(** ** The report of the files loaded with errors *)

Lemma str_join_singleton (sep x : string) : str_join sep [x] = x.
Proof. reflexivity. Qed.

Lemma drop_last_two_app (a : string) : drop_last_two (a +:+ nl +:+ nl) = a.
Proof.
  unfold drop_last_two. rewrite string_length_app. simpl.
  replace (String.length a + 2 - 2)%nat with (String.length a) by lia.
  apply str_take_app.
Qed.

Lemma err_details_loop_join (err_to_report : list (string * list string)) (acc : string) :
  err_details_loop err_to_report acc
  = match List.filter (λ item, bool_decide (item.2 ≠ [])) err_to_report with
    | [] => acc
    | items =>
        acc +:+ str_join (nl +:+ nl)
                  (map (λ item : string * list string,
                          "- - - " +:+ item.1 +:+ " - - -" +:+ nl +:+ " * "
                          +:+ str_join (nl +:+ " * ") item.2) items)
        +:+ nl +:+ nl
    end.
Proof.
  revert acc. induction err_to_report as [|[name errors] rest IH]; intros acc; [done|].
  unfold err_details_loop in *. cbn [foldl snd].
  destruct errors as [|e es].
  - rewrite IH. done.
  - rewrite IH.
    assert (Hfil : ∀ P : string * list string → bool, P (name, e :: es) = true →
              List.filter P ((name, e :: es) :: rest) = (name, e :: es) :: List.filter P rest).
    { intros P HP. simpl. by rewrite HP. }
    rewrite Hfil by done. clear Hfil.
    destruct (List.filter _ rest) as [|item items].
    + cbn [map]. rewrite str_join_singleton. unfold err_block. cbn [fst snd].
      by rewrite ?string_app_assoc.
    + cbn [map]. rewrite (str_join_cons _ _ (_ :: _)) by done.
      unfold err_block. cbn [fst snd]. by rewrite ?string_app_assoc.
Qed.

Lemma err_details_closed_form (err_to_report : list (string * list string)) :
  err_details err_to_report
  = str_join (nl +:+ nl)
      (map (λ item : string * list string,
              "- - - " +:+ item.1 +:+ " - - -" +:+ nl +:+ " * "
              +:+ str_join (nl +:+ " * ") item.2)
           (List.filter (λ item, bool_decide (item.2 ≠ [])) err_to_report)).
Proof.
  unfold err_details. destruct err_to_report as [|item rest] eqn:E; [done|].
  rewrite <- E. clear E. rewrite err_details_loop_join.
  destruct (List.filter _ err_to_report) as [|it its]; [done|].
  rewrite string_app_nil_l. apply drop_last_two_app.
Qed.

(** X23: The details shown for the files loaded with errors are one block per
    file that has errors, the name of the file followed by its errors,
    with an empty line between two blocks and nothing after the last one;
    files without errors are left out. *)
Theorem err_details_blocks (err_to_report : list (string * list string)) :
  err_details err_to_report
  = str_join (nl +:+ nl)
      (map (λ item : string * list string,
              "- - - " +:+ item.1 +:+ " - - -" +:+ nl +:+ " * "
              +:+ str_join (nl +:+ " * ") item.2)
           (List.filter (λ item, bool_decide (item.2 ≠ [])) err_to_report)).
Proof. apply err_details_closed_form. Qed.

(** X24: The message box for the errors of a scan is shown exactly when the
    scan reports an error. *)
Theorem err_details_of_scan {pv_value : Type} (req : string) (d : save_dir pv_value)
    (current_files : gmap string (file_data pv_value)) :
  err_details (get_save_files req d current_files).2 = ""
  ↔ (get_save_files req d current_files).2 = [].
Proof.
  split; [|by intros ->].
  rewrite err_details_closed_form.
  destruct (get_save_files req d current_files).2 as [|[name e] rest] eqn:E; [done|].
  assert (e ≠ []) as He.
  { apply (get_save_files_errors_of_returned_files_aux req d current_files name).
    rewrite E. left. }
  simpl. rewrite bool_decide_eq_true_2 by done. simpl.
  destruct (map _ _); discriminate.
Qed.

(** ** The button "Refresh" *)

Section Refresh.
Context {pv_value : Type}.
Variable json_load : string → result (list (string * meta_data)).
Implicit Types (σ : gui_state pv_value) (d : save_dir pv_value) (c : save_file pv_value).

(** The filter and the index pass of a reconciliation never change the
    table: it is what the table update has left. *)
Lemma start_file_list_update_file_list (req : string) d σ :
  file_list (start_file_list_update json_load req d σ).2
  = file_list (update_file_list_selector (get_save_files req d (file_list σ)).1 σ).2.
Proof.
  unfold start_file_list_update, bind, gets.
  destruct (get_save_files req d (file_list σ)) as [save_files errs]. simpl.
  destruct (update_file_list_selector save_files σ) as [[upd|e] σa]; [|done].
  unfold filter_file_list_selector.
  destruct (filter_items (filter_input σa) (file_selector σa)) as [[[]|e] items]; [|done].
  pose proof (start_file_list_update_new_frame json_load d (set_file_selector items σa))
    as (_ & _ & Hf & _).
  by destruct (start_file_list_update_new json_load d (set_file_selector items σa))
    as [[[]|e] σ1].
Qed.

Lemma get_save_files_loop_length_le req (current_files : gmap string (file_data pv_value))
    (candidates : list (save_file pv_value)) parsed errs :
  (length (get_save_files_loop req current_files candidates parsed errs).1
   ≤ length parsed + length (List.filter (accepted req current_files) candidates))%nat.
Proof.
  revert parsed errs. induction candidates as [|c rest IH]; intros parsed errs.
  - simpl. lia.
  - rewrite get_save_files_loop_cons. simpl.
    destruct (accepted req current_files c); [|apply IH].
    pose proof (od_length_set_le parsed (sf_name c) (parsed_entry c)).
    simpl. case_bool_decide; simpl; [lia|].
    etrans; [apply IH|]. lia.
Qed.

(** X25: "Refresh" rebuilds the table from the directory. With the shared
    list of labels in place, distinct file names in the glob and at most
    ten save files that belong to the request file, the table afterwards
    holds exactly these files, each with the modification time it has on
    disk, its parsed values and its meta data with the defaults; files
    that have disappeared are gone. The state is well formed, however
    the filter and the index pass end. *)
Theorem refresh_rebuilds_table (req : string) d σ (ls : list string)
    (Hlabels : objs σ !! existing_labels σ = Some (PyList ls))
    (Hnames : NoDup (map sf_name (glob_req d)))
    (Hfew : (length (List.filter (λ c, sf_isfile c && belongs_to_request req c)
                       (glob_req d)) ≤ 10)%nat) :
  let σ' := (clear_update_files json_load req d σ).2 in
  (∀ c, c ∈ glob_req d → sf_isfile c = true → belongs_to_request req c = true →
     ∃ data, file_list σ' !! sf_name c = Some data
             ∧ fd_modif_time data = sf_mtime c
             ∧ fd_meta_data data = with_defaults (sf_meta_data c)
             ∧ fd_pvs_list data = sf_pvs_list c)
  ∧ (∀ name, is_Some (file_list σ' !! name) →
       ∃ c, c ∈ glob_req d ∧ sf_name c = name
            ∧ sf_isfile c = true ∧ belongs_to_request req c = true)
  ∧ table_wf σ'.
Proof.
  intros σ'. subst σ'. unfold clear_update_files, bind, clear_file_selector, modify.
  set (σ0 := set_file_list ∅ (set_file_selector [] σ)).
  change ((let (r, σ') := (Ok (), σ0) in
           match r with
           | Ok _ => start_file_list_update json_load req d σ'
           | Raise e => (Raise e, σ')
           end).2)
    with (start_file_list_update json_load req d σ0).2.
  assert (Hwf0 : table_wf σ0) by (by apply (table_wf_empty σ0 ls)).
  split; [|split]; [| |by apply start_file_list_update_wf].
  all: rewrite start_file_list_update_file_list.
  all: change (file_list σ0) with (∅ : gmap string (file_data pv_value)).
  all: assert (Hacc : ∀ c, accepted req (∅ : gmap string (file_data pv_value)) c
                      = sf_isfile c && belongs_to_request req c)
         by (intros c; unfold accepted, new_or_modified; rewrite lookup_empty;
             by rewrite andb_true_r).
  all: assert (Hsf : (get_save_files req d ∅).1
                     = map (λ c, (sf_name c, parsed_entry c))
                         (List.filter (accepted req ∅) (glob_req d))).
  1,3: unfold get_save_files;
       apply (get_save_files_loop_uncapped req ∅ (glob_req d) [] []);
       [ done
       | intros c _; apply not_elem_of_nil
       | etrans; [apply get_save_files_loop_length_le|];
         rewrite (filter_ext _ _ Hacc); simpl; lia ].
  all: destruct (get_save_files_loop_entries req ∅ (glob_req d) [] [])
         as [Hnd Hent]; [apply NoDup_nil_2|]; simpl in Hnd, Hent;
       fold (get_save_files req d (∅ : gmap string (file_data pv_value))) in Hnd, Hent.
  all: destruct (update_loop_wf (get_save_files req d ∅).1 σ0 Hwf0) as (upd & σa & Hrun & _);
       [ intros k v [Hin | (c & _ & _ & ->)]%Hent; [by apply elem_of_nil in Hin|]; simpl; eauto |].
  all: unfold update_file_list_selector, bind, gets; cbn [fst snd]; rewrite Hrun; cbn [snd].
  all: apply update_loop_table in Hrun as (_ & _ & _ & _ & Hother & Hin & _); [|done].
  - intros c Hc Hfile Hbelongs.
    assert ((sf_name c, parsed_entry c) ∈ (get_save_files req d ∅).1) as Hentry.
    { rewrite Hsf. apply (list_elem_of_fmap_2 (λ c, (sf_name c, parsed_entry c))).
      apply list_elem_of_In, filter_In. split; [by apply list_elem_of_In|].
      by rewrite Hacc, Hfile, Hbelongs. }
    destruct (Hin _ _ Hentry) as (data & Hd & Hm & Hp & Ht).
    exists data. repeat split; [done | by apply Ht | done | done].
  - intros name [data Hdata].
    destruct (decide (name ∈ od_keys (get_save_files req d ∅).1)) as [Hk|Hk].
    + rewrite Hsf in Hk. unfold od_keys in Hk. rewrite map_map in Hk. simpl in Hk.
      apply list_elem_of_fmap in Hk as (c & -> & Hc).
      apply list_elem_of_In, filter_In in Hc as [Hc Hc'].
      rewrite Hacc in Hc'. apply andb_true_iff in Hc' as [? ?].
      exists c. repeat split; [by apply list_elem_of_In | done | done].
    + rewrite Hother in Hdata by done. done.
Qed.
End Refresh.

Lemma refresh_rebuilds_table_witness :
  table_wf (clear_update_files (sample_json_load dir_a) "test.req" dir_a state_ab).2
  ∧ file_list (clear_update_files (sample_json_load dir_a) "test.req" dir_a state_ab).2
    !! "test_b.snap" = None.
Proof.
  destruct (refresh_rebuilds_table (sample_json_load dir_a) "test.req" dir_a state_ab
              ["shift1"; "shift2"]) as (_ & Honly & Hwf).
  - vm_compute. reflexivity.
  - apply NoDup_singleton.
  - vm_compute. lia.
  - split; [exact Hwf|].
    destruct (file_list _ !! "test_b.snap") as [data|] eqn:Hb; [|reflexivity].
    destruct (Honly "test_b.snap") as (c & Hc & Hname & _); [by eexists|].
    apply list_elem_of_singleton in Hc. subst c. discriminate Hname.
Defined.

(** ** The suggestions of the selector of labels *)

(** X28: The suggestions of the selector are its first entry (empty, or
    the prompt of a selector restricted to the defaults) followed
    by the default labels and, unless the selector is restricted to the
    defaults, the existing labels, all in one ascending list; a label
    that is both a default and an existing label is listed twice. *)
Theorem update_suggested_keywords_sorted (defaults_only : bool)
    (default_labels existing_labels : list string) :
  ∃ first labels,
    update_suggested_keywords defaults_only default_labels existing_labels = first :: labels
    ∧ first = (if defaults_only then "Select labels ..." else "")
    ∧ Sorted String.le labels
    ∧ labels ≡ₚ (default_labels ++ if defaults_only then [] else existing_labels)%list.
Proof.
  eexists _, _. split; [done|]. split; [done|]. split.
  - apply (Sorted_merge_sort String.le).
  - apply merge_sort_Permutation.
Qed.

(** X29: On a well-formed state, every label of every file of the table is
    among the suggestions of a selector that is not restricted to the
    default labels. *)
Theorem labels_of_table_are_suggested {pv_value : Type} (σ : gui_state pv_value)
    (default_labels : list string) (f : string) (data : file_data pv_value)
    (labels : list string) (label : string)
    (Hwf : table_wf σ)
    (Hfile : file_list σ !! f = Some data)
    (Hlabels : md_labels (fd_meta_data data) = Some labels)
    (Hlabel : label ∈ labels) :
  label ∈ update_suggested_keywords false default_labels (suggested_labels σ).
Proof.
  destruct Hwf as (ls & Hobj & Hfiles).
  destruct (Hfiles f data Hfile) as (_ & labels' & Hl' & Hsub).
  rewrite Hlabels in Hl'. injection Hl' as <-.
  unfold update_suggested_keywords, suggested_labels. rewrite Hobj. right.
  rewrite merge_sort_Permutation. apply elem_of_app. right. by apply Hsub.
Qed.

Lemma labels_of_table_are_suggested_witness :
  "shift2" ∈ update_suggested_keywords false ["daily"] (suggested_labels state_ab).
Proof.
  apply (labels_of_table_are_suggested state_ab ["daily"] "test_b.snap"
           (with_file_selector 1 (parsed_entry file_b)) ["shift1"; "shift2"] "shift2").
  - exact table_wf_state_ab.
  - vm_compute. reflexivity.
  - reflexivity.
  - right. left.
Defined.

(** ** Further consequences *)

(** X16: [gen_index_file] returns an index exactly when the glob matches at
    least one path and every matched path is a file that can be opened;
    a matched directory makes it raise. *)
Theorem gen_index_file_returns_iff {pv_value : Type} (d : save_dir pv_value) :
  is_ok (gen_index_file d) = true
  ↔ glob_idx d ≠ [] ∧ forallb sf_isfile (glob_idx d) = true.
Proof. apply gen_index_file_ok_iff. Qed.

(** X14: A reconciliation started on a well-formed state goes through its
    table update without an exception, and the state it leaves is well
    formed however the filter and the index pass end: the shared
    reference holds a list, and every file of the table has its tree item
    and its labels, each of which is in the list. *)
Theorem reconcile_keeps_well_formed {pv_value : Type}
    (json_load : string → result (list (string * meta_data))) (req : string)
    (d : save_dir pv_value) (σ : gui_state pv_value)
    (Hwf : table_wf σ) :
  is_ok (update_file_list_selector (get_save_files req d (file_list σ)).1 σ).1 = true
  ∧ table_wf (start_file_list_update json_load req d σ).2.
Proof. by apply start_file_list_update_wf. Qed.

Lemma reconcile_keeps_well_formed_witness :
  table_wf (start_file_list_update (sample_json_load dir_ab) "test.req" dir_ab initial_state).2.
Proof.
  exact (proj2 (reconcile_keeps_well_formed (sample_json_load dir_ab) "test.req" dir_ab
                  initial_state table_wf_initial_state)).
Defined.

(** X15: Deleting files keeps a well-formed state well formed, whether the
    deletion runs through or stops with an exception. *)
Theorem delete_keeps_well_formed {pv_value : Type} (selected_files : list string)
    (reply_yes : bool) (os_remove : string → bool) (σ : gui_state pv_value)
    (Hwf : table_wf σ) :
  table_wf (evt_delete_files selected_files reply_yes os_remove σ).2.
Proof. by apply evt_delete_files_wf. Qed.

Lemma delete_keeps_well_formed_witness : table_wf state_b_deleted.
Proof.
  exact (delete_keeps_well_formed ["test_b.snap"] true (λ _, true) state_ab table_wf_state_ab).
Defined.
